(** * SEO audit tool: a shallow embedding of [app.py] and its properties

    The development follows [SEOAuditor] of [app.py]: [analyze_article]
    (fetch, extraction, metrics, keyword counting), [suggest_improvements]
    (the threshold rules) and [save_analysis] (the JSON file), and the part
    of [main]/[display_analysis] that decides whether a save can happen,
    with the loop over the lines of the bulk input.

    Conventions.
    - A Python [str] is a [string]; its characters are the 8-bit [ascii].
      The character classes of the Python runtime ([str.isspace], the
      alphanumeric class behind the regex [\w], [str.lower]) are fields of
      [Runtime]: the code only calls them.
    - A Python [int] is a [Z]; [len] of a list is [Z.of_nat (length _)].
    - A Python [float] is represented by the rational it denotes; the
      rounding performed by true division is the field [float_round].
    - Third-party calls ([requests.get], [BeautifulSoup], [nltk.sent_tokenize],
      the spaCy pipeline) are fields of [Runtime]; those that can raise
      return an [Outcome].
    - A file written by [json.dump] is identified with the JSON document it
      holds: the layout of the text ([indent=2], [ensure_ascii=False]) is
      the [json] module's and is not modelled.
    - Statements with effects live in the monad [M]: a state monad over
      [World] (the files under the working directory and the wall clock)
      with exceptions. What the file system answers to [open(path, 'w')],
      given the files there are, is the field [open_w] of [Runtime]: it
      raises for a name that is too long, a missing directory, a refused
      permission. Once the file is open, writing the document to it is
      taken to succeed.
    - The Streamlit widgets only display; a button is the [bool] it
      reports, given from outside. *)

From Stdlib Require Import ZArith QArith Ascii.
From stdpp Require Import gmap strings list sorting pretty.

Local Open Scope Z_scope.
Set Warnings "-register-all".

(* ===================================================================== *)
(** ** Python values used by the program *)

(** An exception object: its class name and [str(e)]. *)
Record Exception := { exc_class : string; exc_str : string }.

(** The result of evaluating an expression or a call. *)
Inductive Outcome (A : Type) :=
| Returned (a : A)
| Raised (e : Exception).
Arguments Returned {A} a.
Arguments Raised {A} e.

(** A number that is either an [int] or a [float]:
    [avg_sentence_length] is the [int] 0 or the [float] quotient. *)
Inductive PyNum :=
| PyInt (z : Z)
| PyFloat (q : Q).

(** [x > n] for an integer literal [n]. *)
Definition num_gt (x : PyNum) (n : Z) : bool :=
  match x with
  | PyInt z => n <? z
  | PyFloat q => negb (Qle_bool q (inject_Z n))
  end.

(** The parse tree built by BeautifulSoup: text nodes and tags. *)
Inductive Node :=
| NText (s : string)
| NTag (name : string) (attrs : list (string * string)) (children : list Node).

(** A spaCy token, with the three attributes the program reads. *)
Record Token := { tok_text : string; is_stop : bool; is_alpha : bool }.

(** [datetime.now()]. *)
Record DateTime := {
  year : Z; month : Z; day : Z;
  hour : Z; minute : Z; second : Z; microsecond : Z }.

(** The JSON data model [json.dump] maps Python objects to. The module
    prints a [float] with a fraction or an exponent and an [int] without,
    so the two stay apart. *)
Inductive JSON :=
| JStr (s : string)
| JInt (z : Z)
| JFloat (q : Q)
| JArr (l : list JSON)
| JObj (l : list (string * JSON)).

(** What the program takes from the Python runtime and from the
    third-party libraries. *)
Class Runtime := {
  isspace : ascii -> bool;
  isalnum : ascii -> bool;
  str_lower : string -> string;
  float_round : Q -> Q;
  requests_get_text : string -> Outcome string;
  BeautifulSoup : string -> Outcome (list Node);
  sent_tokenize : string -> Outcome (list string);
  nlp : string -> Outcome (list Token);
  open_w : string -> gmap string JSON -> Outcome unit
}.

(* ===================================================================== *)
(** ** Strings *)

Module Str.

Definition len (s : string) : Z := Z.of_nat (String.length s).

(** [sep.join(l)] *)
Fixpoint join (sep : string) (l : list string) : string :=
  match l with
  | [] => ""
  | [s] => s
  | s :: rest => s +:+ sep +:+ join sep rest
  end.

(** [s.startswith(p)], returning the rest of [s]. *)
Fixpoint strip_prefix (p s : string) : option string :=
  match p, s with
  | EmptyString, _ => Some s
  | String a p', String b s' =>
      if Ascii.eqb a b then strip_prefix p' s' else None
  | String _ _, EmptyString => None
  end.

(** [p in s]: [p] occurs in [s] as a substring. *)
Fixpoint contains (p s : string) : bool :=
  match strip_prefix p s with
  | Some _ => true
  | None => match s with
            | EmptyString => false
            | String _ s' => contains p s'
            end
  end.

(** The longest prefix of characters satisfying [f]. *)
Fixpoint take_while (f : ascii -> bool) (s : string) : string :=
  match s with
  | EmptyString => ""
  | String c s' => if f c then String c (take_while f s') else ""
  end.

Fixpoint map (f : ascii -> ascii) (s : string) : string :=
  match s with
  | EmptyString => ""
  | String c s' => String (f c) (map f s')
  end.

Section Whitespace.
Variable isspace : ascii -> bool.

(** [s] begins with a character that is not whitespace. *)
Definition starts_word (s : string) : bool :=
  match s with
  | EmptyString => false
  | String c _ => negb (isspace c)
  end.

(** [s.split()]: the maximal runs of characters that are not
    whitespace. *)
Fixpoint split (s : string) : list string :=
  match s with
  | EmptyString => []
  | String c s' =>
      if isspace c then split s'
      else if starts_word s' then
        match split s' with
        | w :: ws => String c w :: ws
        | [] => [String c ""]
        end
      else String c "" :: split s'
  end.

Fixpoint lstrip (s : string) : string :=
  match s with
  | EmptyString => ""
  | String c s' => if isspace c then lstrip s' else s
  end.

Fixpoint rstrip (s : string) : string :=
  match s with
  | EmptyString => ""
  | String c s' =>
      match rstrip s' with
      | EmptyString => if isspace c then "" else String c ""
      | r => String c r
      end
  end.

(** [s.strip()] *)
Definition strip (s : string) : string := rstrip (lstrip s).
End Whitespace.

(** [s.split(sep)] for a one-character separator: the pieces between
    the separators, empty pieces included. *)
Fixpoint split_on (sep : ascii) (s : string) : list string :=
  match s with
  | EmptyString => [""]
  | String c s' =>
      if Ascii.eqb c sep then "" :: split_on sep s'
      else match split_on sep s' with
           | w :: ws => String c w :: ws
           | [] => [String c ""]
           end
  end.

(** Every character of [s] satisfies [f]. *)
Fixpoint all (f : ascii -> bool) (s : string) : bool :=
  match s with
  | EmptyString => true
  | String c s' => f c && all f s'
  end.

(** The characters of [s] that satisfy [f]. *)
Fixpoint keep (f : ascii -> bool) (s : string) : string :=
  match s with
  | EmptyString => ""
  | String c s' => if f c then String c (keep f s') else keep f s'
  end.

End Str.

(* ===================================================================== *)
(** ** The parse tree: [find_all] and [.text] *)

Module Soup.

(** [tag.text]: the text nodes below the tag, concatenated in document
    order. *)
Fixpoint text (n : Node) : string :=
  match n with
  | NText s => s
  | NTag _ _ children =>
      (fix texts (l : list Node) : string :=
         match l with
         | [] => ""
         | c :: l' => text c +:+ texts l'
         end) children
  end.

(** The tags of a forest in document order (a tag before the tags
    nested in it). *)
Fixpoint tags_of (n : Node) : list Node :=
  match n with
  | NText _ => []
  | NTag _ _ children =>
      n :: (fix below (l : list Node) : list Node :=
              match l with
              | [] => []
              | c :: l' => tags_of c ++ below l'
              end) children
  end.

Definition descendants (soup : list Node) : list Node :=
  flat_map tags_of soup.

Definition tag_name (n : Node) : string :=
  match n with NText _ => "" | NTag name _ _ => name end.

Definition tag_attrs (n : Node) : list (string * string) :=
  match n with NText _ => [] | NTag _ attrs _ => attrs end.

(** [tag.get(key)] *)
Fixpoint get (key : string) (attrs : list (string * string)) : option string :=
  match attrs with
  | [] => None
  | (k, v) :: rest => if String.eqb k key then Some v else get key rest
  end.

(** [soup.find_all(name)] *)
Definition find_all (name : string) (soup : list Node) : list Node :=
  filter (fun n => tag_name n = name) (descendants soup).

(** [soup.find_all(name, href=True)] *)
Definition find_all_href (name : string) (soup : list Node) : list Node :=
  filter (fun n => is_Some (get "href" (tag_attrs n))) (find_all name soup).

End Soup.

(* ===================================================================== *)
(** ** The world and the monad of statements *)

(** The files written so far (path to content) and the wall clock. *)
Record World := { files : gmap string JSON; clock : DateTime }.

Definition M (A : Type) : Type := World -> Outcome A * World.

#[global] Instance M_ret : MRet M := fun A a w => (Returned a, w).

#[global] Instance M_bind : MBind M := fun A B f m w =>
  match m w with
  | (Returned a, w') => f a w'
  | (Raised e, w') => (Raised e, w')
  end.

(** An expression that may raise and has no other effect. *)
Definition eval {A} (o : Outcome A) : M A := fun w => (o, w).

Definition raise {A} (e : Exception) : M A := eval (Raised e).

(** [try: body  except Exception as e: handler(e)] *)
Definition try_except {A} (body : M A) (handler : Exception -> M A) : M A :=
  fun w =>
    match body w with
    | (Returned a, w') => (Returned a, w')
    | (Raised e, w') => handler e w'
    end.

(** [datetime.now()] reads the clock. *)
Definition datetime_now : M DateTime := fun w => (Returned (clock w), w).

(** [with open(path, 'w', encoding='utf-8') as f: json.dump(doc, f, ...)]:
    when [open] raises nothing is written and the exception goes on;
    otherwise the file is created, or truncated and rewritten when it
    exists. *)
Definition write_json `{Runtime} (path : string) (content : JSON) : M unit :=
  fun w =>
    match open_w path (files w) with
    | Returned _ =>
        (Returned (),
         {| files := <[path := content]> (files w); clock := clock w |})
    | Raised e => (Raised e, w)
    end.

(* ===================================================================== *)
(** ** Dates *)

Module Date.

Definition digit (z : Z) : ascii := ascii_of_nat (48 + Z.to_nat (z mod 10)).

(** The last [width] decimal digits of [z], zero padded. *)
Fixpoint zfill (width : nat) (z : Z) : string :=
  match width with
  | O => ""
  | S w => zfill w (z / 10) +:+ String (digit z) ""
  end.

(** [t.strftime('%Y%m%d_%H%M%S')] *)
Definition strftime (t : DateTime) : string :=
  zfill 4 (year t) +:+ zfill 2 (month t) +:+ zfill 2 (day t) +:+ "_" +:+
  zfill 2 (hour t) +:+ zfill 2 (minute t) +:+ zfill 2 (second t).

(** [t.isoformat()]: the microseconds are printed unless they are 0. *)
Definition isoformat (t : DateTime) : string :=
  zfill 4 (year t) +:+ "-" +:+ zfill 2 (month t) +:+ "-" +:+
  zfill 2 (day t) +:+ "T" +:+ zfill 2 (hour t) +:+ ":" +:+
  zfill 2 (minute t) +:+ ":" +:+ zfill 2 (second t) +:+
  (if microsecond t =? 0 then "" else "." +:+ zfill 6 (microsecond t)).

End Date.

(* ===================================================================== *)
(** ** The analysis record *)

Record MetricSet := {
  word_count : Z;
  avg_sentence_length : PyNum;
  num_headings : Z;
  num_internal_links : Z;
  num_external_links : Z }.

Record LinkRef := { link_text : string; link_href : string }.

Record AnalysisRecord := {
  url : string;
  analyzed_at : string;
  metrics : MetricSet;
  headings : list string;
  internal_links : list LinkRef;
  external_links : list LinkRef;
  top_keywords : list (string * Z) }.

(** What [analyze_article] returns: the dict [{'error': msg}] or the
    record dict. *)
Inductive Analysis :=
| AnError (error : string)
| ARecord (r : AnalysisRecord).

(** ['error' in analysis] *)
Definition has_error (a : Analysis) : bool :=
  match a with AnError _ => true | ARecord _ => false end.

Record Suggestion := {
  category : string;
  issue : string;
  suggestion : string;
  priority : string }.

(* ===================================================================== *)
(** ** Dicts with insertion order ([keywords]) *)

Module Dict.

(** [d.get(k, default)] *)
Fixpoint get (k : string) (d : list (string * Z)) (default : Z) : Z :=
  match d with
  | [] => default
  | (k', v) :: d' => if String.eqb k' k then v else get k d' default
  end.

(** [d[k] = v]: an existing key keeps its place, a new key goes last. *)
Fixpoint set (k : string) (v : Z) (d : list (string * Z)) : list (string * Z) :=
  match d with
  | [] => [(k, v)]
  | (k', v') :: d' =>
      if String.eqb k' k then (k', v) :: d' else (k', v') :: set k v d'
  end.

(** [dict(items)] *)
Definition of_items (items : list (string * Z)) : list (string * Z) :=
  fold_left (fun d kv => set kv.1 kv.2 d) items [].

(** Insertion of [x] in front of the first entry whose count is not
    greater: entries with equal counts keep their order. *)
Fixpoint insert_desc (x : string * Z) (l : list (string * Z)) : list (string * Z) :=
  match l with
  | [] => [x]
  | y :: l' => if x.2 <? y.2 then y :: insert_desc x l' else x :: l
  end.

(** [sorted(items, key=lambda x: x[1], reverse=True)]: a stable sort by
    descending count. *)
Definition sorted_by_count_desc (items : list (string * Z)) : list (string * Z) :=
  foldr insert_desc [] items.

End Dict.

(* ===================================================================== *)
(** ** The regular expressions *)

Module Re.

Definition not_slash (c : ascii) : bool := negb (Ascii.eqb c "/").

Definition nonempty (s : string) : option string :=
  match s with EmptyString => None | _ => Some s end.

(** The pattern [https?://(?:www\.)?([^/]+)] tried at the start of [s]:
    the text captured by the group. When [www.] is followed by [/] or by
    the end of the text, the matcher backtracks and the group takes
    [www.] itself. *)
Definition match_domain (s : string) : option string :=
  match Str.strip_prefix "http" s with
  | None => None
  | Some r =>
      let r := match Str.strip_prefix "s" r with Some r' => r' | None => r end in
      match Str.strip_prefix "://" r with
      | None => None
      | Some host =>
          match Str.strip_prefix "www." host with
          | Some rest =>
              match nonempty (Str.take_while not_slash rest) with
              | Some g => Some g
              | None => nonempty (Str.take_while not_slash host)
              end
          | None => nonempty (Str.take_while not_slash host)
          end
      end
  end.

(** [re.findall(r'https?://(?:www\.)?([^/]+)', url)[0]]: the group of
    the leftmost match; [IndexError] when there is none. *)
Fixpoint findall_domain_0 (url : string) : Outcome string :=
  match match_domain url with
  | Some g => Returned g
  | None =>
      match url with
      | EmptyString =>
          Raised {| exc_class := "IndexError";
                    exc_str := "list index out of range" |}
      | String _ rest => findall_domain_0 rest
      end
  end.

Section WordChars.
Variable isalnum : ascii -> bool.

(** The class [[\w\-_.]]: [\w] is the alphanumeric characters and
    the underscore. *)
Definition filename_char (c : ascii) : bool :=
  isalnum c || Ascii.eqb c "_" || Ascii.eqb c "-" || Ascii.eqb c ".".

(** [re.sub(r'[^\w\-_.]', '_', s)] *)
Definition sanitize (s : string) : string :=
  Str.map (fun c => if filename_char c then c else "_"%char) s.
End WordChars.

End Re.

(* ===================================================================== *)
(** ** [class SEOAuditor] *)

Module SEOAuditor.
Section WithRuntime.
Context `{Runtime}.

(** [a / b] on two [int]s: a [float], or [ZeroDivisionError]. *)
Definition truediv (a b : Z) : Outcome Q :=
  if b =? 0 then
    Raised {| exc_class := "ZeroDivisionError"; exc_str := "division by zero" |}
  else Returned (float_round (inject_Z a / inject_Z b)%Q).

(** [' '.join([p.text for p in soup.find_all('p')])] *)
Definition paragraphs_text (soup : list Node) : string :=
  Str.join " " (Soup.text <$> Soup.find_all "p" soup).

(** [word_count / len(sentences) if sentences else 0] *)
Definition average (word_count : Z) (sentences : list string) : M PyNum :=
  match sentences with
  | _ :: _ =>
      q ← eval (truediv word_count (Z.of_nat (length sentences)));
      mret (PyFloat q)
  | [] => mret (PyInt 0)
  end.

(** [[h.text.strip() for h in soup.find_all(f'h{i}')]] *)
Definition headings_of_level (soup : list Node) (i : Z) : list string :=
  (fun h => Str.strip isspace (Soup.text h)) <$> Soup.find_all ("h" +:+ pretty i) soup.

(** The loop [for i in range(1, 7): headings.extend(...)]. *)
Definition extract_headings (soup : list Node) : list string :=
  fold_left (fun headings i => headings ++ headings_of_level soup i)
            [1; 2; 3; 4; 5; 6] [].

(** [{'text': a.text.strip(), 'href': a.get('href')}] *)
Definition link_of (a : Node) : LinkRef :=
  {| link_text := Str.strip isspace (Soup.text a);
     link_href := default "" (Soup.get "href" (Soup.tag_attrs a)) |}.

(** One turn of the loop over the anchors: the link goes to
    [internal_links] or to [external_links]. *)
Definition classify_step (domain : string)
    (acc : list LinkRef * list LinkRef) (a : Node) : list LinkRef * list LinkRef :=
  let link := link_of a in
  if Str.contains domain (link_href link)
  then (acc.1 ++ [link], acc.2)
  else (acc.1, acc.2 ++ [link]).

(** The loop [for a in soup.find_all('a', href=True)]. *)
Definition classify_links (domain : string) (soup : list Node)
    : list LinkRef * list LinkRef :=
  fold_left (classify_step domain) (Soup.find_all_href "a" soup) ([], []).

(** [not token.is_stop and token.is_alpha and len(token.text) > 2] *)
Definition is_keyword (token : Token) : bool :=
  negb (is_stop token) && is_alpha token && (2 <? Str.len (tok_text token)).

(** One turn of the loop over the tokens. *)
Definition count_step (keywords : list (string * Z)) (token : Token)
    : list (string * Z) :=
  if is_keyword token then
    Dict.set (str_lower (tok_text token))
             (Dict.get (str_lower (tok_text token)) keywords 0 + 1) keywords
  else keywords.

(** The loop [for token in doc]. *)
Definition count_keywords (doc : list Token) : list (string * Z) :=
  fold_left count_step doc [].

(** [dict(sorted(keywords.items(), key=lambda x: x[1], reverse=True)[:10])] *)
Definition sort_keywords (keywords : list (string * Z)) : list (string * Z) :=
  Dict.of_items (take 10 (Dict.sorted_by_count_desc keywords)).

(** The body of the [try] block of [analyze_article]. *)
Definition analyze_article_try (url : string) : M Analysis :=
  response_text ← eval (requests_get_text url);
  soup ← eval (BeautifulSoup response_text);
  let text := paragraphs_text soup in
  let word_count := Z.of_nat (length (Str.split isspace text)) in
  sentences ← eval (sent_tokenize text);
  avg_sentence_length ← average word_count sentences;
  let headings := extract_headings soup in
  domain ← eval (Re.findall_domain_0 url);
  let links := classify_links domain soup in
  let internal_links := links.1 in
  let external_links := links.2 in
  doc ← eval (nlp text);
  let keywords := count_keywords doc in
  let sorted_keywords := sort_keywords keywords in
  now ← datetime_now;
  mret (ARecord
    {| url := url;
       analyzed_at := Date.isoformat now;
       metrics :=
         {| word_count := word_count;
            avg_sentence_length := avg_sentence_length;
            num_headings := Z.of_nat (length headings);
            num_internal_links := Z.of_nat (length internal_links);
            num_external_links := Z.of_nat (length external_links) |};
       headings := headings;
       internal_links := internal_links;
       external_links := external_links;
       top_keywords := sorted_keywords |}).

(** [analyze_article]: the body, and [except Exception as e: return
    {'error': str(e)}]. *)
Definition analyze_article (url : string) : M Analysis :=
  try_except (analyze_article_try url)
             (fun e => mret (AnError (exc_str e))).

(** [suggest_improvements]: five [if]s in a row, each appending to
    [suggestions]. *)
Definition suggest_improvements (analysis : AnalysisRecord) : list Suggestion :=
  let suggestions := [] in
  let metrics := metrics analysis in
  let suggestions :=
    if word_count metrics <? 300 then
      suggestions ++
      [{| category := "Content Length";
          issue := "Content is too short";
          suggestion := "Aim for at least 300 words for better SEO performance.";
          priority := "High" |}]
    else suggestions in
  let suggestions :=
    if num_gt (avg_sentence_length metrics) 20 then
      suggestions ++
      [{| category := "Readability";
          issue := "Sentences are too long";
          suggestion := "Try to keep average sentence length under 20 words for better readability.";
          priority := "Medium" |}]
    else suggestions in
  let suggestions :=
    if num_headings metrics =? 0 then
      suggestions ++
      [{| category := "Structure";
          issue := "No headings found";
          suggestion := "Add hierarchical headings (H1, H2, etc.) to improve content structure.";
          priority := "High" |}]
    else suggestions in
  let suggestions :=
    if num_internal_links metrics <? 2 then
      suggestions ++
      [{| category := "Internal Linking";
          issue := "Few internal links";
          suggestion := "Add more internal links to improve site structure and SEO.";
          priority := "Medium" |}]
    else suggestions in
  let suggestions :=
    if num_external_links metrics =? 0 then
      suggestions ++
      [{| category := "External Linking";
          issue := "No external links";
          suggestion := "Consider adding relevant external links to authoritative sources.";
          priority := "Low" |}]
    else suggestions in
  suggestions.

(** The JSON document of a record, as [json.dump] sees the dict. *)
Definition num_json (x : PyNum) : JSON :=
  match x with PyInt z => JInt z | PyFloat q => JFloat q end.

Definition metrics_json (m : MetricSet) : JSON :=
  JObj [("word_count", JInt (word_count m));
        ("avg_sentence_length", num_json (avg_sentence_length m));
        ("num_headings", JInt (num_headings m));
        ("num_internal_links", JInt (num_internal_links m));
        ("num_external_links", JInt (num_external_links m))].

Definition link_json (l : LinkRef) : JSON :=
  JObj [("text", JStr (link_text l)); ("href", JStr (link_href l))].

Definition analysis_json (a : AnalysisRecord) : JSON :=
  JObj [("url", JStr (url a));
        ("analyzed_at", JStr (analyzed_at a));
        ("metrics", metrics_json (metrics a));
        ("headings", JArr (JStr <$> headings a));
        ("internal_links", JArr (link_json <$> internal_links a));
        ("external_links", JArr (link_json <$> external_links a));
        ("top_keywords", JObj ((fun kv => (kv.1, JInt kv.2)) <$> top_keywords a))].

(** The name [f"{filename}_{status}_{timestamp}.json"] under
    [results_dir]. *)
Definition output_file_name (url : string) (approved : bool) (now : DateTime) : string :=
  let timestamp := Date.strftime now in
  let filename := Re.sanitize isalnum url in
  let status := if approved then "approved" else "pending" in
  "results/" +:+ filename +:+ "_" +:+ status +:+ "_" +:+ timestamp +:+ ".json".

(** [save_analysis] *)
Definition save_analysis (analysis : AnalysisRecord) (approved : bool) : M string :=
  now ← datetime_now;
  let output_file := output_file_name (url analysis) approved now in
  _ ← write_json output_file (analysis_json analysis);
  mret output_file.

(** The two buttons of [display_analysis], as [st.button] reports them. *)
Record Buttons := { save_clicked : bool; approve_clicked : bool }.

(** [display_analysis]: what is shown does not change the world; the
    two buttons call [save_analysis]. *)
Definition display_analysis (analysis : AnalysisRecord) (b : Buttons) : M unit :=
  let suggestions := suggest_improvements analysis in
  _ ← (if save_clicked b
       then _ ← save_analysis analysis false; mret ()
       else mret ());
  if approve_clicked b
  then _ ← save_analysis analysis true; mret ()
  else mret ().

(** [main], input method "Single URL", once the Analyze button is
    pressed: an error is shown, a record is displayed. *)
Definition main_single_url (url : string) (b : Buttons) : M unit :=
  analysis ← analyze_article url;
  match analysis with
  | AnError _ => mret ()
  | ARecord r => display_analysis r b
  end.

(** A [for] loop over a list. *)
Fixpoint for_each {A} (l : list A) (body : A -> M unit) : M unit :=
  match l with
  | [] => mret ()
  | x :: rest => _ ← body x; for_each rest body
  end.

(** The body of the loop of "Bulk URLs": a line that is blank once
    stripped is skipped; [press] gives what the two buttons under the
    result of a url report. *)
Definition bulk_step (press : string -> Buttons) (url : string) : M unit :=
  match Str.strip isspace url with
  | EmptyString => mret ()
  | stripped =>
      analysis ← analyze_article stripped;
      match analysis with
      | AnError _ => mret ()
      | ARecord r => display_analysis r (press stripped)
      end
  end.

(** [main], input method "Bulk URLs", once the Analyze All button is
    pressed: nothing happens on an empty text. *)
Definition main_bulk_urls (urls : string) (press : string -> Buttons) : M unit :=
  match urls with
  | EmptyString => mret ()
  | _ => for_each (Str.split_on "010"%char urls) (bulk_step press)
  end.

End WithRuntime.
End SEOAuditor.

(* ===================================================================== *)
(** ** Reading a saved document back *)

Module Json.

(** [obj[key]] *)
Fixpoint field (key : string) (members : list (string * JSON)) : option JSON :=
  match members with
  | [] => None
  | (k, v) :: rest => if String.eqb k key then Some v else field key rest
  end.

Definition members (j : JSON) : option (list (string * JSON)) :=
  match j with JObj l => Some l | _ => None end.

Definition items (j : JSON) : option (list JSON) :=
  match j with JArr l => Some l | _ => None end.

Definition str (j : JSON) : option string :=
  match j with JStr s => Some s | _ => None end.

Definition int (j : JSON) : option Z :=
  match j with JInt z => Some z | _ => None end.

Definition num (j : JSON) : option PyNum :=
  match j with
  | JInt z => Some (PyInt z)
  | JFloat q => Some (PyFloat q)
  | _ => None
  end.

Definition metric_set (j : JSON) : option MetricSet :=
  o ← members j;
  wc ← field "word_count" o ≫= int;
  avg ← field "avg_sentence_length" o ≫= num;
  nh ← field "num_headings" o ≫= int;
  ni ← field "num_internal_links" o ≫= int;
  ne ← field "num_external_links" o ≫= int;
  Some {| word_count := wc; avg_sentence_length := avg; num_headings := nh;
          num_internal_links := ni; num_external_links := ne |}.

Definition link (j : JSON) : option LinkRef :=
  o ← members j;
  t ← field "text" o ≫= str;
  h ← field "href" o ≫= str;
  Some {| link_text := t; link_href := h |}.

Definition count (kv : string * JSON) : option (string * Z) :=
  c ← int kv.2; Some (kv.1, c).

(** The record held by a document that [json.load] has parsed. *)
Definition analysis (j : JSON) : option AnalysisRecord :=
  o ← members j;
  u ← field "url" o ≫= str;
  at_ ← field "analyzed_at" o ≫= str;
  m ← field "metrics" o ≫= metric_set;
  hs ← (field "headings" o ≫= items) ≫= mapM str;
  il ← (field "internal_links" o ≫= items) ≫= mapM link;
  el ← (field "external_links" o ≫= items) ≫= mapM link;
  kw ← (field "top_keywords" o ≫= members) ≫= mapM count;
  Some {| url := u; analyzed_at := at_; metrics := m; headings := hs;
          internal_links := il; external_links := el; top_keywords := kw |}.

End Json.

(* ===================================================================== *)
(** ** The rule table of the suggestion engine, as the specification
    states it *)

Module Rules.

Inductive Category :=
| ContentLength | Readability | Structure | InternalLinking | ExternalLinking.

Inductive Priority := High | Medium | Low.

(** The value of a number, as a rational. *)
Definition value (x : PyNum) : Q :=
  match x with PyInt z => inject_Z z | PyFloat q => q end.

(** The condition column. *)
Definition condition (c : Category) (m : MetricSet) : Prop :=
  match c with
  | ContentLength => word_count m < 300
  | Readability => (inject_Z 20 < value (avg_sentence_length m))%Q
  | Structure => num_headings m = 0
  | InternalLinking => num_internal_links m < 2
  | ExternalLinking => num_external_links m = 0
  end.

#[global] Instance Qlt_dec (x y : Q) : Decision (x < y)%Q.
Proof. destruct (Qlt_le_dec x y); [left | right]; auto using Qle_not_lt. Defined.

#[global] Instance condition_dec c m : Decision (condition c m).
Proof. destruct c; simpl; apply _. Defined.

(** The priority column. *)
Definition priority_of (c : Category) : Priority :=
  match c with
  | ContentLength => High
  | Readability => Medium
  | Structure => High
  | InternalLinking => Medium
  | ExternalLinking => Low
  end.

(** The rows, in declaration order. *)
Definition declared : list Category :=
  [ContentLength; Readability; Structure; InternalLinking; ExternalLinking].

(** The rules that fire on [m], in declaration order. *)
Definition fired (m : MetricSet) : list Category :=
  filter (fun c => condition c m) declared.

Definition category_name (c : Category) : string :=
  match c with
  | ContentLength => "Content Length"
  | Readability => "Readability"
  | Structure => "Structure"
  | InternalLinking => "Internal Linking"
  | ExternalLinking => "External Linking"
  end.

Definition priority_name (p : Priority) : string :=
  match p with High => "High" | Medium => "Medium" | Low => "Low" end.

(** Category and priority of a suggestion of the program. *)
Definition label (s : Suggestion) : string * string :=
  (category s, priority s).

Definition row (c : Category) : string * string :=
  (category_name c, priority_name (priority_of c)).

End Rules.

(* ===================================================================== *)
(** ** A small runtime to run the program on: ASCII character classes,
    one reachable page, a one-rule sentence splitter and a whitespace
    tokenizer *)

Module Demo.

Definition code (c : ascii) : Z := Z.of_nat (nat_of_ascii c).

Definition between (lo hi : Z) (c : ascii) : bool :=
  (lo <=? code c) && (code c <=? hi).

(** Space, tab, line feed, vertical tab, form feed, carriage return. *)
Definition ascii_isspace (c : ascii) : bool :=
  between 9 13 c || (code c =? 32).

Definition isupper (c : ascii) : bool := between 65 90 c.

Definition isalpha (c : ascii) : bool := isupper c || between 97 122 c.

Definition ascii_isalnum (c : ascii) : bool := isalpha c || between 48 57 c.

Definition lower (s : string) : string :=
  Str.map (fun c => if isupper c then ascii_of_nat (nat_of_ascii c + 32) else c) s.

Fixpoint all_chars (f : ascii -> bool) (s : string) : bool :=
  match s with
  | EmptyString => true
  | String c s' => f c && all_chars f s'
  end.

Definition page_url : string := "https://www.example.com/post".

Definition page_html : string :=
  "<h2> Sub </h2><h1>Title</h1><p>The quick fox likes the quick Fox. <a href='https://www.example.com/about'>About</a></p><p>Foxes run</p><a href='https://other.org/x'>Other</a><a>bare</a>".

Definition page_soup : list Node :=
  [NTag "h2" [] [NText " Sub "];
   NTag "h1" [] [NText "Title"];
   NTag "p" []
     [NText "The quick fox likes the quick Fox. ";
      NTag "a" [("href", "https://www.example.com/about")] [NText "About"]];
   NTag "p" [] [NText "Foxes run"];
   NTag "a" [("href", "https://other.org/x")] [NText "Other"];
   NTag "a" [] [NText "bare"]].

Definition connection_error : Exception :=
  {| exc_class := "ConnectionError"; exc_str := "connection refused" |}.

(** A second page, with a heading and no paragraph. *)
Definition bare_url : string := "http://bare.example.org/".

Definition bare_html : string := "<h1>Only</h1>".

Definition bare_soup : list Node := [NTag "h1" [] [NText "Only"]].

(** A url that does not answer. *)
Definition down_url : string := "https://down.example.net/page".

(** Only [page_url] and [bare_url] answer. *)
Definition get (url : string) : Outcome string :=
  if String.eqb url page_url then Returned page_html
  else if String.eqb url bare_url then Returned bare_html
  else Raised connection_error.

Definition parse (html : string) : Outcome (list Node) :=
  Returned (if String.eqb html page_html then page_soup
            else if String.eqb html bare_html then bare_soup
            else []).

(** A sentence ends after each full stop. *)
Fixpoint sentences_from (cur s : string) : list string :=
  match s with
  | EmptyString => match cur with EmptyString => [] | _ => [cur] end
  | String c s' =>
      if Ascii.eqb c "."
      then (cur +:+ ".") :: sentences_from "" s'
      else sentences_from (cur +:+ String c "") s'
  end.

Definition stop_words : list string := ["the"; "and"; "for"; "are"].

Definition token (s : string) : Token :=
  {| tok_text := s;
     is_stop := bool_decide (lower s ∈ stop_words);
     is_alpha := all_chars isalpha s |}.

(** The name of a path: what follows its last slash. *)
Fixpoint base_name (path : string) : string :=
  match path with
  | EmptyString => ""
  | String c rest =>
      if Str.contains "/" rest then base_name rest
      else if Ascii.eqb c "/" then rest else path
  end.

(** A file system that refuses a name of more than 255 bytes, as Linux
    does, and nothing else. *)
Definition open_file (path : string) (_ : gmap string JSON) : Outcome unit :=
  if 255 <? Str.len (base_name path)
  then Raised {| exc_class := "OSError";
                 exc_str := "[Errno 36] File name too long: '" +:+ path +:+ "'" |}
  else Returned ().

Definition runtime : Runtime := {|
  isspace := ascii_isspace;
  isalnum := ascii_isalnum;
  str_lower := lower;
  float_round := fun q => q;
  requests_get_text := get;
  BeautifulSoup := parse;
  sent_tokenize := fun text => Returned (sentences_from "" text);
  nlp := fun text => Returned (token <$> Str.split ascii_isspace text);
  open_w := open_file
|}.

Definition t0 : DateTime :=
  {| year := 2024; month := 3; day := 9;
     hour := 14; minute := 5; second := 7; microsecond := 120 |}.

(** Later in the same second. *)
Definition t1 : DateTime :=
  {| year := 2024; month := 3; day := 9;
     hour := 14; minute := 5; second := 7; microsecond := 480000 |}.

Definition w0 : World := {| files := ∅; clock := t0 |}.


(** The record of [page_url] analyzed at [t0]. *)
Definition record : AnalysisRecord :=
  {| url := page_url;
     analyzed_at := "2024-03-09T14:05:07.000120";
     metrics :=
       {| word_count := 10; avg_sentence_length := PyFloat (10 # 2);
          num_headings := 2; num_internal_links := 1;
          num_external_links := 1 |};
     headings := ["Title"; "Sub"];
     internal_links :=
       [{| link_text := "About";
           link_href := "https://www.example.com/about" |}];
     external_links :=
       [{| link_text := "Other"; link_href := "https://other.org/x" |}];
     top_keywords :=
       [("quick", 2); ("fox", 1); ("likes", 1); ("about", 1);
        ("foxes", 1); ("run", 1)] |}.

(** The same metrics in a record that differs in everything else. *)
Definition other_record : AnalysisRecord :=
  {| url := "https://elsewhere.example.org/";
     analyzed_at := "2025-01-01T00:00:00";
     metrics := metrics record;
     headings := [];
     internal_links := [];
     external_links := [];
     top_keywords := [("other", 7)] |}.

(** The record of [bare_url] analyzed at [t0]. *)
Definition bare_record : AnalysisRecord :=
  {| url := bare_url;
     analyzed_at := "2024-03-09T14:05:07.000120";
     metrics :=
       {| word_count := 0; avg_sentence_length := PyInt 0;
          num_headings := 1; num_internal_links := 0;
          num_external_links := 0 |};
     headings := ["Only"];
     internal_links := [];
     external_links := [];
     top_keywords := [] |}.

(** The file that saving [record], not approved, at [t0] or [t1]
    writes. *)
Definition saved_path : string :=
  "results/https___www.example.com_post_pending_20240309_140507.json".

(** The file that saving [record], approved, at [t0] writes. *)
Definition approved_path : string :=
  "results/https___www.example.com_post_approved_20240309_140507.json".

(** Eleven different words, the first of them twice. *)
Definition eleven_words : list Token :=
  token <$> ["alpha"; "bravo"; "charlie"; "delta"; "echo"; "foxtrot";
             "golf"; "hotel"; "india"; "juliett"; "kilo"; "alpha"].

Definition both_buttons : SEOAuditor.Buttons :=
  {| SEOAuditor.save_clicked := true; SEOAuditor.approve_clicked := true |}.

(** A page that links to itself, and a runtime in which every fetch
    gives that page. *)
Definition self_soup : list Node :=
  [NTag "p" []
     [NText "Back to the ";
      NTag "a" [("href", page_url)] [NText " start "]]].

Definition self_runtime : Runtime := {|
  isspace := ascii_isspace;
  isalnum := ascii_isalnum;
  str_lower := lower;
  float_round := fun q => q;
  requests_get_text := fun _ => Returned "<p>Back to the <a href='https://www.example.com/post'> start </a></p>";
  BeautifulSoup := fun _ => Returned self_soup;
  sent_tokenize := fun text => Returned (sentences_from "" text);
  nlp := fun text => Returned (token <$> Str.split ascii_isspace text);
  open_w := open_file
|}.

(** The record of that page analyzed at [t0]. *)
Definition self_record : AnalysisRecord :=
  {| url := page_url;
     analyzed_at := "2024-03-09T14:05:07.000120";
     metrics :=
       {| word_count := 4; avg_sentence_length := PyFloat (4 # 1);
          num_headings := 0; num_internal_links := 1;
          num_external_links := 0 |};
     headings := [];
     internal_links :=
       [{| link_text := "start"; link_href := page_url |}];
     external_links := [];
     top_keywords := [("back", 1); ("start", 1)] |}.

Fixpoint repeat_char (c : ascii) (n : nat) : string :=
  match n with
  | O => ""
  | S n' => String c (repeat_char c n')
  end.



(** A second after [t0]. *)
Definition t2 : DateTime :=
  {| year := 2024; month := 3; day := 9;
     hour := 14; minute := 5; second := 8; microsecond := 0 |}.

(** The file that saving [record], not approved, at [t2] writes. *)
Definition later_path : string :=
  "results/https___www.example.com_post_pending_20240309_140508.json".

(** A record whose metrics pass every rule. *)
Definition good_record : AnalysisRecord :=
  {| url := page_url;
     analyzed_at := "2024-03-09T14:05:07.000120";
     metrics :=
       {| word_count := 300; avg_sentence_length := PyFloat (20 # 1);
          num_headings := 1; num_internal_links := 2;
          num_external_links := 1 |};
     headings := ["Title"];
     internal_links := [];
     external_links := [];
     top_keywords := [] |}.

End Demo.

(* ===================================================================== *)
(** ** Vocabulary of the statements *)

Import SEOAuditor.

(** The metric set of scenario 3. *)
Definition scenario3 : MetricSet :=
  {| word_count := 250; avg_sentence_length := PyFloat (15 # 1);
     num_headings := 1; num_internal_links := 0; num_external_links := 0 |}.

(** The order of descending counts. *)
Definition count_ge (x y : string * Z) : Prop := y.2 <= x.2.

Section Vocabulary.
Context `{Runtime}.

(** The record that the body of [analyze_article] builds from what the
    stages returned. *)
Definition record_of (url : string) (soup : list Node) (avg : PyNum)
    (domain : string) (doc : list Token) (now : DateTime) : AnalysisRecord :=
  let text := paragraphs_text soup in
  let links := classify_links domain soup in
  {| url := url;
     analyzed_at := Date.isoformat now;
     metrics :=
       {| word_count := Z.of_nat (length (Str.split isspace text));
          avg_sentence_length := avg;
          num_headings := Z.of_nat (length (extract_headings soup));
          num_internal_links := Z.of_nat (length links.1);
          num_external_links := Z.of_nat (length links.2) |};
     headings := extract_headings soup;
     internal_links := links.1;
     external_links := links.2;
     top_keywords := sort_keywords (count_keywords doc) |}.

(** The stages of a run of [analyze_article] that returned a record. *)
Inductive Run (url : string) (w : World) (r : AnalysisRecord) : Prop :=
| Run_intro (html : string) (soup : list Node) (sentences : list string)
    (avg : PyNum) (domain : string) (doc : list Token)
    (run_get : requests_get_text url = Returned html)
    (run_parse : BeautifulSoup html = Returned soup)
    (run_sent : sent_tokenize (paragraphs_text soup) = Returned sentences)
    (run_average :
       average (Z.of_nat (length (Str.split isspace (paragraphs_text soup))))
               sentences w = (Returned avg, w))
    (run_findall : Re.findall_domain_0 url = Returned domain)
    (run_nlp : nlp (paragraphs_text soup) = Returned doc)
    (run_record : r = record_of url soup avg domain doc (clock w)).

Definition is_internal (domain : string) (l : LinkRef) : Prop :=
  Str.contains domain (link_href l) = true.

#[global] Instance is_internal_dec domain l : Decision (is_internal domain l).
Proof. unfold is_internal. apply _. Defined.

(** The words that are counted: the retained tokens, lower-cased. *)
Definition counted_words (doc : list Token) : list string :=
  (fun t => str_lower (tok_text t)) <$> filter (fun t => is_keyword t = true) doc.

(** The number of times [k] is in [ws]. *)
Definition occurrences (k : string) (ws : list string) : Z :=
  Z.of_nat (length (filter (fun x => x = k) ws)).

(** What the loop over the tokens maintains: no key twice, [get] gives
    the number of occurrences so far, and the keys are the words seen. *)
Record Counts (ws : list string) (d : list (string * Z)) : Prop := {
  counts_NoDup : NoDup d.*1;
  counts_get : forall k, Dict.get k d 0 = occurrences k ws;
  counts_keys : forall k, k ∈ d.*1 <-> k ∈ ws }.

End Vocabulary.

(** The sum of the counts of a keyword dict. *)
Definition total_count (d : list (string * Z)) : Z :=
  foldr (fun kv acc => kv.2 + acc) 0 d.

(** The words of [ws] in the order of their first occurrence. *)
Definition first_occurrences (ws : list string) : list string :=
  reverse (remove_dups (reverse ws)).

(** The last character of [s] is not whitespace. *)
Fixpoint ends_word (isspace : ascii -> bool) (s : string) : bool :=
  match s with
  | EmptyString => false
  | String c EmptyString => negb (isspace c)
  | String _ s' => ends_word isspace s'
  end.

(** A date and time whose fields fit the digits [strftime] prints. *)
Definition printable (t : DateTime) : Prop :=
  0 <= year t < 10000 /\ 0 <= month t < 100 /\ 0 <= day t < 100 /\
  0 <= hour t < 100 /\ 0 <= minute t < 100 /\ 0 <= second t < 100.

(** Two dates and times in the same second. *)
Definition same_second (t t' : DateTime) : Prop :=
  year t = year t' /\ month t = month t' /\ day t = day t' /\
  hour t = hour t' /\ minute t = minute t' /\ second t = second t'.

(** A word: not empty and without whitespace. *)
Definition is_word (isspace : ascii -> bool) (w : string) : Prop :=
  w <> "" /\ Str.all (fun c => negb (isspace c)) w = true.

(** What indexing an empty list raises. *)
Definition index_error : Exception :=
  {| exc_class := "IndexError"; exc_str := "list index out of range" |}.

(** The name of the output file under [results/]. *)
Definition file_name `{Runtime} (url : string) (approved : bool)
    (now : DateTime) : string :=
  Re.sanitize isalnum url +:+ "_" +:+
  (if approved then "approved" else "pending") +:+ "_" +:+
  Date.strftime now +:+ ".json".

(* ===================================================================== *)
(** * Properties *)


(** ** The suggestion engine *)

Lemma num_gt_spec (x : PyNum) (n : Z) :
  num_gt x n = true <-> (inject_Z n < Rules.value x)%Q.
Proof.
  destruct x as [z | q]; simpl.
  - rewrite Z.ltb_lt. now rewrite Zlt_Qlt.
  - rewrite negb_true_iff. split.
    + intros Hle. apply Qnot_le_lt. intros Hq.
      apply Qle_bool_iff in Hq. congruence.
    + intros Hlt. destruct (Qle_bool q (inject_Z n)) eqn:E; [| reflexivity].
      apply Qle_bool_iff in E. exfalso. exact (Qlt_not_le _ _ Hlt E).
Qed.

Lemma num_gt_decide (x : PyNum) (n : Z) :
  num_gt x n = bool_decide (inject_Z n < Rules.value x)%Q.
Proof.
  destruct (num_gt x n) eqn:E.
  - symmetry. apply bool_decide_eq_true. now apply num_gt_spec.
  - symmetry. apply bool_decide_eq_false. intros Hlt.
    apply num_gt_spec in Hlt. congruence.
Qed.

Lemma ltb_decide (a b : Z) : (a <? b) = bool_decide (a < b).
Proof.
  destruct (a <? b) eqn:E; symmetry.
  - apply bool_decide_eq_true. now apply Z.ltb_lt.
  - apply bool_decide_eq_false. now apply Z.ltb_ge in E; lia.
Qed.

Lemma eqb_decide (a b : Z) : (a =? b) = bool_decide (a = b).
Proof.
  destruct (a =? b) eqn:E; symmetry.
  - apply bool_decide_eq_true. now apply Z.eqb_eq.
  - apply bool_decide_eq_false. now apply Z.eqb_neq.
Qed.

Lemma append_if {A} (b : bool) (l : list A) (x : A) :
  (if b then l ++ [x] else l) = l ++ (if b then [x] else []).
Proof. destruct b; [reflexivity | now rewrite app_nil_r]. Qed.

Lemma filter_cons_app {A} (P : A -> Prop) `{!forall x, Decision (P x)}
    (x : A) (l : list A) :
  filter P (x :: l) = (if decide (P x) then [x] else []) ++ filter P l.
Proof. rewrite filter_cons. now destruct (decide (P x)). Qed.

(** One row of the table against one [if] of the program. *)
Lemma fired_piece (P : Prop) (d1 d2 : Decision P) (s : Suggestion)
    (c : Rules.Category) :
  Rules.label s = Rules.row c ->
  Rules.label <$> (if @bool_decide P d1 then [s] else [])
  = Rules.row <$> (if @decide P d2 then [c] else []).
Proof.
  intros E. unfold bool_decide, decide.
  destruct d1, d2; simpl; congruence || contradiction.
Qed.

Section Suggestions.
Context `{Runtime}.

(** C1. The categories and priorities that [suggest_improvements]
    returns are the rows of the rule table whose condition holds on the
    metrics, each row judged on its own, in the order of declaration:
    word_count < 300 (Content Length, High), avg_sentence_length > 20
    (Readability, Medium), num_headings = 0 (Structure, High),
    num_internal_links < 2 (Internal Linking, Medium),
    num_external_links = 0 (External Linking, Low), and nothing else.
    On the metrics of scenario 3, whatever the other fields of the
    record, the result is Content Length (High), Internal Linking
    (Medium), External Linking (Low). *)
Theorem suggest_improvements_rule_table :
  (forall a : AnalysisRecord,
     Rules.label <$> suggest_improvements a
     = Rules.row <$> Rules.fired (metrics a)) /\
  (forall u at_ hs il el kw,
     Rules.label <$> suggest_improvements
       {| url := u; analyzed_at := at_; metrics := scenario3; headings := hs;
          internal_links := il; external_links := el; top_keywords := kw |}
     = [("Content Length", "High"); ("Internal Linking", "Medium");
        ("External Linking", "Low")]).
Proof.
  split; [| reflexivity].
  intros a. unfold suggest_improvements, Rules.fired, Rules.declared.
  rewrite !ltb_decide, !eqb_decide, num_gt_decide.
  rewrite !append_if, !filter_cons_app, filter_nil, !fmap_app.
  rewrite app_nil_l, app_nil_r, <- !app_assoc.
  repeat first [ apply fired_piece; reflexivity | apply (f_equal2 (@app _)) ].
Qed.

(** C9. [suggest_improvements] reads the metrics and nothing else: two
    records with equal metrics get the same list of suggestions, in the
    same order, whatever their url, headings, links and keywords. As a
    function it returns the same list each time it is applied to the
    same record. *)
Theorem suggest_improvements_metrics_only (a b : AnalysisRecord) :
  metrics a = metrics b ->
  suggest_improvements a = suggest_improvements b.
Proof.
  intros Hm. unfold suggest_improvements. now rewrite Hm.
Qed.

End Suggestions.

(** ** Running statements *)

Lemma bind_run {A B} (m : M A) (f : A -> M B) (w : World) :
  (m ≫= f) w =
  match m w with
  | (Returned a, w') => f a w'
  | (Raised e, w') => (Raised e, w')
  end.
Proof. reflexivity. Qed.

Lemma bind_eval_run {A B} (o : Outcome A) (f : A -> M B) (w : World) :
  (eval o ≫= f) w =
  match o with
  | Returned a => f a w
  | Raised e => (Raised e, w)
  end.
Proof. rewrite bind_run. unfold eval. now destruct o. Qed.

Lemma ret_run {A} (a : A) (w : World) : (mret a : M A) w = (Returned a, w).
Proof. reflexivity. Qed.

Section Analysis.
Context `{Runtime}.

(** The guarded division never raises. *)
Lemma average_run (word_count : Z) (sentences : list string) (w : World) :
  average word_count sentences w =
  (Returned
     match sentences with
     | [] => PyInt 0
     | _ :: _ =>
         PyFloat (float_round
                    (inject_Z word_count / inject_Z (Z.of_nat (length sentences)))%Q)
     end, w).
Proof.
  destruct sentences as [| s rest]; [reflexivity |].
  unfold average. rewrite bind_eval_run. unfold truediv.
  destruct (Z.eqb_spec (Z.of_nat (length (s :: rest))) 0) as [E | _];
    [simpl in E; lia | reflexivity].
Qed.

Lemma analyze_article_try_run (url : string) (w : World) :
  analyze_article_try url w =
  match requests_get_text url with
  | Raised e => (Raised e, w)
  | Returned html =>
    match BeautifulSoup html with
    | Raised e => (Raised e, w)
    | Returned soup =>
      let text := paragraphs_text soup in
      match sent_tokenize text with
      | Raised e => (Raised e, w)
      | Returned sentences =>
        match average (Z.of_nat (length (Str.split isspace text))) sentences w with
        | (Raised e, w') => (Raised e, w')
        | (Returned avg, _) =>
          match Re.findall_domain_0 url with
          | Raised e => (Raised e, w)
          | Returned domain =>
            match nlp text with
            | Raised e => (Raised e, w)
            | Returned doc =>
                (Returned (ARecord (record_of url soup avg domain doc (clock w))), w)
            end
          end
        end
      end
    end
  end.
Proof.
  unfold analyze_article_try.
  rewrite bind_eval_run. destruct (requests_get_text url) as [html | e]; [| reflexivity].
  rewrite bind_eval_run. destruct (BeautifulSoup html) as [soup | e]; [| reflexivity].
  cbv zeta.
  rewrite bind_eval_run.
  destruct (sent_tokenize (paragraphs_text soup)) as [sentences | e]; [| reflexivity].
  rewrite bind_run, average_run.
  rewrite bind_eval_run. destruct (Re.findall_domain_0 url) as [domain | e]; [| reflexivity].
  rewrite bind_eval_run.
  destruct (nlp (paragraphs_text soup)) as [doc | e]; [| reflexivity].
  reflexivity.
Qed.

(** Whatever the stages do, the world after the body is the world
    before it. *)
Lemma analyze_article_try_world (url : string) (w : World) :
  (analyze_article_try url w).2 = w.
Proof.
  rewrite analyze_article_try_run.
  destruct (requests_get_text url) as [html | e]; [| reflexivity].
  destruct (BeautifulSoup html) as [soup | e]; [| reflexivity].
  cbv zeta.
  destruct (sent_tokenize (paragraphs_text soup)) as [sentences | e]; [| reflexivity].
  rewrite average_run.
  destruct (Re.findall_domain_0 url) as [domain | e]; [| reflexivity].
  destruct (nlp (paragraphs_text soup)) as [doc | e]; reflexivity.
Qed.

Lemma analyze_article_record (url : string) (w w' : World) (r : AnalysisRecord) :
  analyze_article url w = (Returned (ARecord r), w') ->
  Run url w r /\ w' = w.
Proof.
  unfold analyze_article, try_except. rewrite analyze_article_try_run.
  destruct (requests_get_text url) as [html | e] eqn:Eget; [| discriminate].
  destruct (BeautifulSoup html) as [soup | e] eqn:Eparse; [| discriminate].
  cbv zeta.
  destruct (sent_tokenize (paragraphs_text soup)) as [sentences | e] eqn:Esent;
    [| discriminate].
  destruct (average _ sentences w) as [[avg | e] w1] eqn:Eavg;
    [| rewrite average_run in Eavg; discriminate].
  destruct (Re.findall_domain_0 url) as [domain | e] eqn:Efind; [| discriminate].
  destruct (nlp (paragraphs_text soup)) as [doc | e] eqn:Enlp; [| discriminate].
  intros [= <- <-]. split; [| reflexivity].
  assert (w1 = w) as -> by (rewrite average_run in Eavg; congruence).
  econstructor; eauto.
Qed.

End Analysis.

Section AnalysisProperties.
Context `{Runtime}.

(** *** Errors *)

Lemma save_not_reached (url : string) (b : Buttons) (w : World) (msg : string) :
  analyze_article url w = (Returned (AnError msg), w) ->
  main_single_url url b w = (Returned (), w).
Proof.
  intros Ha. unfold main_single_url. rewrite bind_run, Ha. reflexivity.
Qed.

(** C3. [analyze_article] returns on every url and leaves the world,
    its files included, as it was. When the body raises an exception
    [e], at whatever stage (fetch, parse, sentence splitting, domain
    extraction, tokenizing), the result is the error [str(e)]; this is so
    when the fetch raises. After an error result, [main] does not reach
    [display_analysis], so no button can save: the world stays as it
    was. *)
Theorem analyze_article_never_raises (url : string) (w : World) :
  exists a : Analysis,
    analyze_article url w = (Returned a, w) /\
    (forall e w', analyze_article_try url w = (Raised e, w') ->
                  a = AnError (exc_str e)) /\
    (forall e, requests_get_text url = Raised e -> a = AnError (exc_str e)) /\
    (has_error a = true ->
     forall b : Buttons, main_single_url url b w = (Returned (), w)).
Proof.
  pose proof (analyze_article_try_world url w) as Hw.
  assert (forall e, requests_get_text url = Raised e ->
                    analyze_article_try url w = (Raised e, w)) as Hfetch.
  { intros e He. rewrite analyze_article_try_run, He. reflexivity. }
  unfold analyze_article at 1, try_except.
  destruct (analyze_article_try url w) as [[a | e] w1] eqn:E;
    simpl in Hw; subst w1.
  - exists a. split; [reflexivity |]. split; [discriminate |]. split.
    + intros e He. pose proof (Hfetch e He) as Hf. rewrite ?E in Hf. discriminate.
    + destruct a as [msg | r]; [| discriminate]. intros _ b.
      apply (save_not_reached url b w msg).
      unfold analyze_article, try_except. now rewrite E.
  - exists (AnError (exc_str e)). split; [reflexivity |].
    split; [now intros e' w' [= <- _] |]. split.
    + intros e' He'. pose proof (Hfetch e' He') as Hf. rewrite ?E in Hf.
      now injection Hf as <-.
    + intros _ b. apply (save_not_reached url b w (exc_str e)).
      unfold analyze_article, try_except. now rewrite E.
Qed.

(** *** Links *)

Lemma classify_fold (domain : string) (anchors : list Node)
    (acc : list LinkRef * list LinkRef) :
  fold_left (classify_step domain) anchors acc =
  (acc.1 ++ filter (is_internal domain) (link_of <$> anchors),
   acc.2 ++ filter (fun l => ~ is_internal domain l) (link_of <$> anchors)).
Proof.
  revert acc. induction anchors as [| a rest IH]; intros [int ext].
  - simpl. now rewrite !filter_nil, !app_nil_r.
  - cbn [fold_left]. rewrite IH. rewrite fmap_cons, !filter_cons.
    unfold classify_step.
    destruct (decide (is_internal domain (link_of a))) as [Hin | Hout].
    + rewrite decide_False by tauto. unfold is_internal in Hin.
      rewrite Hin. cbn [fst snd]. now rewrite <- app_assoc.
    + rewrite decide_True by assumption. unfold is_internal in Hout.
      apply not_true_is_false in Hout.
      rewrite Hout. cbn [fst snd]. now rewrite <- app_assoc.
Qed.

Lemma classify_links_filter (domain : string) (soup : list Node) :
  classify_links domain soup =
  (filter (is_internal domain) (link_of <$> Soup.find_all_href "a" soup),
   filter (fun l => ~ is_internal domain l)
          (link_of <$> Soup.find_all_href "a" soup)).
Proof. unfold classify_links. now rewrite classify_fold. Qed.



(** *** The average sentence length *)

(** C4. The division is guarded: on every word count and every list of
    sentences the computation of the average returns, the [int] 0 when
    there is no sentence and the [float] quotient of the word count by
    the number of sentences otherwise. The record holds that value for
    the word count and the sentences of the page; when the paragraph
    text is empty, the splitter gives no sentence for it and the
    tokenizer no token, the record has word_count 0,
    avg_sentence_length 0 and no keyword. *)
Theorem avg_sentence_length_guarded :
  (forall (wc : Z) (sentences : list string) (w : World),
     exists avg,
       average wc sentences w = (Returned avg, w) /\
       (sentences = [] -> avg = PyInt 0) /\
       (sentences <> [] ->
        avg = PyFloat (float_round
                (inject_Z wc / inject_Z (Z.of_nat (length sentences)))%Q))) /\
  (forall (url : string) (w w' : World) (r : AnalysisRecord)
          (html : string) (soup : list Node) (sentences : list string),
     requests_get_text url = Returned html ->
     BeautifulSoup html = Returned soup ->
     sent_tokenize (paragraphs_text soup) = Returned sentences ->
     analyze_article url w = (Returned (ARecord r), w') ->
     average (word_count (metrics r)) sentences w
     = (Returned (avg_sentence_length (metrics r)), w) /\
     (paragraphs_text soup = "" -> sentences = [] -> nlp "" = Returned [] ->
      word_count (metrics r) = 0 /\
      avg_sentence_length (metrics r) = PyInt 0 /\
      top_keywords r = [])).
Proof.
  split.
  - intros wc sentences w. eexists. split; [apply average_run |].
    destruct sentences; split; congruence.
  - intros url w w' r html soup sentences Hget Hparse Hsent Ha.
    apply analyze_article_record in Ha as [[] _].
    assert (html0 = html) as -> by congruence.
    assert (soup0 = soup) as -> by congruence.
    assert (sentences0 = sentences) as -> by congruence.
    subst r. unfold record_of.
    cbn [metrics word_count avg_sentence_length top_keywords].
    split; [assumption |].
    intros Htext -> Hnlp. rewrite Htext in *.
    rewrite average_run in run_average.
    assert (doc = []) as -> by congruence.
    split; [reflexivity |]. split; [congruence | reflexivity].
Qed.

(** *** Consistency of the record *)

(** C10. In a record that [analyze_article] returns, [num_headings],
    [num_internal_links] and [num_external_links] are the lengths of
    the lists [headings], [internal_links] and [external_links] of the
    same record, and [word_count] is the number of words that [split]
    finds in the joined paragraph text, the text whose tokens were
    counted into [top_keywords]. *)
Theorem record_consistent (url : string) (w w' : World) (r : AnalysisRecord) :
  analyze_article url w = (Returned (ARecord r), w') ->
  num_headings (metrics r) = Z.of_nat (length (headings r)) /\
  num_internal_links (metrics r) = Z.of_nat (length (internal_links r)) /\
  num_external_links (metrics r) = Z.of_nat (length (external_links r)) /\
  exists (html : string) (soup : list Node) (doc : list Token),
    requests_get_text url = Returned html /\
    BeautifulSoup html = Returned soup /\
    nlp (paragraphs_text soup) = Returned doc /\
    top_keywords r = sort_keywords (count_keywords doc) /\
    word_count (metrics r)
    = Z.of_nat (length (Str.split isspace (paragraphs_text soup))).
Proof.
  intros Ha. apply analyze_article_record in Ha as [[] _]. subst r.
  unfold record_of. cbn.
  repeat split. exists html, soup, doc. repeat split; assumption.
Qed.

End AnalysisProperties.

(** ** Keywords *)

Section DictFacts.
Implicit Types (d : list (string * Z)) (k : string) (v : Z).

Lemma dict_get_set k k' v d default :
  Dict.get k' (Dict.set k v d) default =
  if decide (k = k') then v else Dict.get k' d default.
Proof.
  induction d as [| [k0 v0] d IH]; simpl.
  - destruct (String.eqb_spec k k'); case_decide; congruence.
  - destruct (String.eqb_spec k0 k) as [-> | Hne]; simpl.
    + destruct (String.eqb_spec k k'); case_decide; congruence.
    + destruct (String.eqb_spec k0 k'); [| exact IH].
      case_decide; congruence.
Qed.

Lemma dict_set_fresh k v d : k ∉ d.*1 -> Dict.set k v d = d ++ [(k, v)].
Proof.
  induction d as [| [k0 v0] d IH]; simpl; intros Hk; [reflexivity |].
  apply not_elem_of_cons in Hk as [Hne Hk].
  destruct (String.eqb_spec k0 k); [congruence |]. now rewrite IH.
Qed.

Lemma dict_set_keys k v d : k ∈ d.*1 -> (Dict.set k v d).*1 = d.*1.
Proof.
  induction d as [| [k0 v0] d IH]; intros Hk.
  - now apply elem_of_nil in Hk.
  - cbn [Dict.set]. destruct (String.eqb_spec k0 k); [reflexivity |].
    rewrite fmap_cons in Hk.
    apply elem_of_cons in Hk as [-> | Hk]; [now simpl in * |].
    rewrite !fmap_cons. f_equal. now apply IH.
Qed.

Lemma dict_set_NoDup k v d : NoDup d.*1 -> NoDup (Dict.set k v d).*1.
Proof.
  intros Hd. destruct (decide (k ∈ d.*1)) as [Hin | Hout].
  - now rewrite dict_set_keys.
  - rewrite dict_set_fresh, fmap_app by assumption. simpl.
    apply NoDup_app. split; [assumption |]. split.
    + intros x Hx Hx'. apply list_elem_of_singleton in Hx'. congruence.
    + apply NoDup_singleton.
Qed.

Lemma dict_set_elem_of_keys k k' v d :
  k' ∈ (Dict.set k v d).*1 <-> k' = k \/ k' ∈ d.*1.
Proof.
  destruct (decide (k ∈ d.*1)) as [Hin | Hout].
  - rewrite dict_set_keys by assumption.
    split; [tauto | now intros [-> | Hk']].
  - rewrite dict_set_fresh, fmap_app by assumption. simpl.
    rewrite elem_of_app, list_elem_of_singleton. tauto.
Qed.

Lemma dict_get_elem_of k v d default :
  NoDup d.*1 -> (k, v) ∈ d -> Dict.get k d default = v.
Proof.
  induction d as [| [k0 v0] d IH]; simpl; intros Hd Hin.
  - now apply elem_of_nil in Hin.
  - apply NoDup_cons in Hd as [Hk0 Hd].
    apply elem_of_cons in Hin as [[= -> ->] | Hin].
    + now rewrite String.eqb_refl.
    + destruct (String.eqb_spec k0 k) as [-> | _]; [| now apply IH].
      exfalso. apply Hk0. apply list_elem_of_fmap. now exists (k, v).
Qed.

Lemma dict_get_absent k d default : k ∉ d.*1 -> Dict.get k d default = default.
Proof.
  induction d as [| [k0 v0] d IH]; simpl; intros Hk; [reflexivity |].
  apply not_elem_of_cons in Hk as [Hne Hk].
  destruct (String.eqb_spec k0 k); [congruence | now apply IH].
Qed.

Lemma dict_of_items_fold (items acc : list (string * Z)) :
  NoDup (acc ++ items).*1 ->
  fold_left (fun d kv => Dict.set kv.1 kv.2 d) items acc = acc ++ items.
Proof.
  revert acc. induction items as [| [k v] items IH]; intros acc Hnd; simpl.
  - now rewrite app_nil_r.
  - rewrite dict_set_fresh.
    + rewrite IH; rewrite <- app_assoc; [reflexivity | exact Hnd].
    + rewrite fmap_app in Hnd. apply NoDup_app in Hnd as (_ & Hdisj & _).
      intros Hk. apply (Hdisj k Hk). simpl. apply elem_of_cons. now left.
Qed.

(** [dict(items)] is [items] when no key is repeated. *)
Lemma dict_of_items_NoDup (items : list (string * Z)) :
  NoDup items.*1 -> Dict.of_items items = items.
Proof. intros Hnd. unfold Dict.of_items. now rewrite dict_of_items_fold. Qed.

Lemma insert_desc_perm (x : string * Z) (l : list (string * Z)) :
  Dict.insert_desc x l ≡ₚ x :: l.
Proof.
  induction l as [| y l IH]; simpl; [reflexivity |].
  destruct (x.2 <? y.2); [| reflexivity].
  rewrite IH. apply Permutation_swap.
Qed.

Lemma insert_desc_sorted (x : string * Z) (l : list (string * Z)) :
  StronglySorted count_ge l -> StronglySorted count_ge (Dict.insert_desc x l).
Proof.
  induction l as [| y l IH]; simpl; intros Hs.
  - repeat constructor.
  - apply StronglySorted_inv in Hs as [Hl Hy].
    destruct (Z.ltb_spec (x.2) (y.2)) as [Hlt | Hge].
    + constructor; [now apply IH |].
      rewrite insert_desc_perm. constructor; [unfold count_ge; lia | assumption].
    + constructor; [now constructor |].
      constructor; [exact Hge |].
      eapply Forall_impl; [exact Hy |]. unfold count_ge. intros z Hz. lia.
Qed.

Lemma sorted_by_count_desc_perm (l : list (string * Z)) :
  Dict.sorted_by_count_desc l ≡ₚ l.
Proof.
  induction l as [| x l IH]; simpl; [reflexivity |].
  now rewrite insert_desc_perm, IH.
Qed.

Lemma sorted_by_count_desc_sorted (l : list (string * Z)) :
  StronglySorted count_ge (Dict.sorted_by_count_desc l).
Proof.
  induction l as [| x l IH]; simpl; [constructor |].
  now apply insert_desc_sorted.
Qed.

End DictFacts.

Section Keywords.
Context `{Runtime}.

Lemma occurrences_app k ws ws' :
  occurrences k (ws ++ ws') = occurrences k ws + occurrences k ws'.
Proof. unfold occurrences. rewrite filter_app, length_app. lia. Qed.

Lemma occurrences_singleton k k' :
  occurrences k' [k] = if decide (k = k') then 1 else 0.
Proof.
  unfold occurrences. rewrite filter_cons, filter_nil.
  repeat case_decide; congruence || reflexivity.
Qed.

Lemma occurrences_pos k ws : k ∈ ws <-> 1 <= occurrences k ws.
Proof.
  unfold occurrences. split.
  - intros Hin. assert (k ∈ filter (fun x => x = k) ws) as Hf
      by (now apply list_elem_of_filter).
    destruct (filter (fun x => x = k) ws); [now apply elem_of_nil in Hf |].
    simpl. lia.
  - intros Hlen. destruct (filter (fun x => x = k) ws) as [| x l] eqn:E;
      [simpl in Hlen; lia |].
    assert (x ∈ filter (fun x => x = k) ws) as Hx
      by (rewrite E; apply elem_of_cons; now left).
    apply list_elem_of_filter in Hx as [-> Hx]. exact Hx.
Qed.

Lemma counts_step ws d t :
  Counts ws d ->
  Counts (ws ++ counted_words [t]) (count_step d t).
Proof.
  intros [Hnd Hget Hkeys]. unfold count_step, counted_words.
  rewrite filter_cons, filter_nil.
  destruct (is_keyword t) eqn:E.
  - rewrite decide_True by reflexivity. simpl.
    set (k := str_lower (tok_text t)).
    split.
    + now apply dict_set_NoDup.
    + intros k'. rewrite dict_get_set, occurrences_app, !Hget.
      rewrite occurrences_singleton. case_decide; subst; lia.
    + intros k'. rewrite dict_set_elem_of_keys, elem_of_app, Hkeys.
      rewrite list_elem_of_singleton. tauto.
  - rewrite decide_False by discriminate. simpl. rewrite app_nil_r.
    now split.
Qed.

Lemma counted_words_app doc doc' :
  counted_words (doc ++ doc') = counted_words doc ++ counted_words doc'.
Proof. unfold counted_words. now rewrite filter_app, fmap_app. Qed.

Lemma counts_fold doc ws d :
  Counts ws d -> Counts (ws ++ counted_words doc) (fold_left count_step doc d).
Proof.
  revert ws d. induction doc as [| t doc IH]; intros ws d Hc; simpl.
  - unfold counted_words. rewrite filter_nil. simpl. now rewrite app_nil_r.
  - change (t :: doc) with ([t] ++ doc).
    rewrite counted_words_app, app_assoc. apply IH. now apply counts_step.
Qed.

Lemma count_keywords_counts doc : Counts (counted_words doc) (count_keywords doc).
Proof.
  unfold count_keywords. apply (counts_fold doc [] []).
  split; [constructor | reflexivity |].
  intros k. simpl. split; intros Hk; now apply elem_of_nil in Hk.
Qed.

Lemma counts_entry ws d k c :
  Counts ws d -> (k, c) ∈ d -> c = occurrences k ws /\ 1 <= c.
Proof.
  intros [Hnd Hget Hkeys] Hin.
  assert (c = occurrences k ws) as ->.
  { rewrite <- Hget. symmetry. now apply dict_get_elem_of. }
  split; [reflexivity |]. apply occurrences_pos, Hkeys.
  apply list_elem_of_fmap. now exists (k, occurrences k ws).
Qed.

(** [dict(...)] changes nothing: the ten entries kept have ten keys. *)
Lemma sort_keywords_take (doc : list Token) :
  sort_keywords (count_keywords doc)
  = take 10 (Dict.sorted_by_count_desc (count_keywords doc)) /\
  NoDup (take 10 (Dict.sorted_by_count_desc (count_keywords doc))).*1.
Proof.
  pose proof (count_keywords_counts doc) as Hc.
  pose proof (sorted_by_count_desc_perm (count_keywords doc)) as Hperm.
  set (sorted := Dict.sorted_by_count_desc (count_keywords doc)) in *.
  assert (NoDup sorted.*1) as Hnd.
  { rewrite Hperm. apply (counts_NoDup _ _ Hc). }
  rewrite <- (take_drop 10 sorted), fmap_app in Hnd.
  apply NoDup_app in Hnd as (Hnd & _ & _).
  split; [| exact Hnd].
  unfold sort_keywords. fold sorted. now apply dict_of_items_NoDup.
Qed.

(** C5. The keyword map is made from the tokens that are not stop
    words, are alphabetic and are longer than 2 characters: each key is
    the lower-cased text of such a token and its value is the number of
    such tokens with that lower-cased text. [top_keywords] has at most
    10 entries, no key twice, every count is at least 1, and the entries
    come in descending order of count. A counted word that is left out
    has a count no greater than any of the 10 entries kept. *)
Theorem top_keywords_spec (doc : list Token) :
  let top := sort_keywords (count_keywords doc) in
  (forall t, is_keyword t = true <->
             is_stop t = false /\ is_alpha t = true /\
             (2 < String.length (tok_text t))%nat) /\
  (length top <= 10)%nat /\
  NoDup top.*1 /\
  (forall k c, (k, c) ∈ top ->
               c = occurrences k (counted_words doc) /\ 1 <= c) /\
  StronglySorted count_ge top /\
  (forall k, k ∈ counted_words doc -> k ∉ top.*1 ->
             length top = 10%nat /\
             forall e, e ∈ top -> occurrences k (counted_words doc) <= e.2).
Proof.
  intros top.
  pose proof (count_keywords_counts doc) as Hc.
  pose proof (sorted_by_count_desc_perm (count_keywords doc)) as Hperm.
  pose proof (sorted_by_count_desc_sorted (count_keywords doc)) as Hsorted.
  destruct (sort_keywords_take doc) as [Htop Hnd]. fold top in Htop.
  set (sorted := Dict.sorted_by_count_desc (count_keywords doc)) in *.
  rewrite Htop. rewrite <- (take_drop 10 sorted) in Hsorted.
  split; [| split; [| split; [| split; [| split]]]].
  - intros t. unfold is_keyword, Str.len.
    rewrite !andb_true_iff, negb_true_iff, Z.ltb_lt. intuition lia.
  - rewrite length_take. lia.
  - exact Hnd.
  - intros k c Hin. apply (counts_entry _ _ k c Hc).
    rewrite <- Hperm. now apply (subseteq_take 10 sorted).
  - now apply StronglySorted_app_1_l in Hsorted.
  - intros k Hk Hout.
    assert ((k, occurrences k (counted_words doc)) ∈ sorted) as Hin.
    { rewrite Hperm. apply (counts_keys _ _ Hc) in Hk.
      apply list_elem_of_fmap in Hk as ([k' c] & -> & Hin). simpl.
      now destruct (counts_entry _ _ k' c Hc Hin) as [<- _]. }
    rewrite <- (take_drop 10 sorted) in Hin.
    apply elem_of_app in Hin as [Hin | Hin].
    { exfalso. apply Hout. apply list_elem_of_fmap.
      now exists (k, occurrences k (counted_words doc)). }
    split.
    + rewrite length_take. apply Nat.min_l.
      destruct (decide (10 <= length sorted)%nat) as [Hle | Hgt]; [exact Hle |].
      rewrite drop_ge in Hin by lia. now apply elem_of_nil in Hin.
    + intros e He.
      exact (StronglySorted_app_1_elem_of _ _ _ _ _ Hsorted He Hin).
Qed.

End Keywords.

(** ** Strings *)

Lemma append_empty_r (s : string) : s +:+ "" = s.
Proof.
  induction s as [| c s IH]; [reflexivity |].
  change (String c (s +:+ "") = String c s). now rewrite IH.
Qed.

Lemma append_assoc (a b c : string) : (a +:+ b) +:+ c = a +:+ (b +:+ c).
Proof.
  induction a as [| x a IH]; [reflexivity |].
  change (String x ((a +:+ b) +:+ c) = String x (a +:+ (b +:+ c))).
  now rewrite IH.
Qed.

Lemma append_cons (x : ascii) (a b : string) :
  String x a +:+ b = String x (a +:+ b).
Proof. reflexivity. Qed.

Lemma append_length (a b : string) :
  String.length (a +:+ b) = (String.length a + String.length b)%nat.
Proof.
  induction a as [| x a IH]; [reflexivity |].
  rewrite append_cons. simpl. now rewrite IH.
Qed.

Lemma append_inv_head (a b c : string) : a +:+ b = a +:+ c -> b = c.
Proof.
  induction a as [| x a IH]; [trivial |].
  rewrite !append_cons. intros [= E]. now apply IH.
Qed.

(** Two appends of equal strings with first parts of equal length. *)
Lemma append_inv (a a' b b' : string) :
  String.length a = String.length a' ->
  a +:+ b = a' +:+ b' -> a = a' /\ b = b'.
Proof.
  revert a'. induction a as [| x a IH]; intros [| x' a'] Hlen; simpl in Hlen;
    try discriminate.
  - intros E. change (b = b') in E. now subst.
  - rewrite !append_cons. intros [= -> E].
    destruct (IH a') as [-> ->]; [lia | exact E | easy].
Qed.

Lemma all_append (f : ascii -> bool) (a b : string) :
  Str.all f (a +:+ b) = Str.all f a && Str.all f b.
Proof.
  induction a as [| x a IH]; [reflexivity |].
  rewrite append_cons. simpl. rewrite IH. now rewrite andb_assoc.
Qed.

Section Words.
Variable isspace : ascii -> bool.

Lemma split_starts_word (s : string) :
  Str.starts_word isspace s = true -> Str.split isspace s <> [].
Proof.
  destruct s as [| c s]; [discriminate |]. simpl. intros Hc.
  apply negb_true_iff in Hc. rewrite Hc.
  destruct (Str.starts_word isspace s); [| discriminate].
  now destruct (Str.split isspace s).
Qed.

Lemma split_only_words (s : string) : Forall (is_word isspace) (Str.split isspace s).
Proof.
  induction s as [| c s IH]; [constructor |]. simpl.
  destruct (isspace c) eqn:Ec; [exact IH |].
  assert (is_word isspace (String c "")) as Hc.
  { split; [discriminate |]. simpl. now rewrite Ec. }
  destruct (Str.starts_word isspace s).
  - destruct (Str.split isspace s) as [| w ws]; [now constructor |].
    apply Forall_cons in IH as [[_ Hw] Hws]. constructor; [| exact Hws].
    split; [discriminate |]. simpl. now rewrite Ec, Hw.
  - now constructor.
Qed.

(** The words, put end to end, are the text without its whitespace. *)
Lemma split_concat (s : string) :
  Str.join "" (Str.split isspace s) = Str.keep (fun c => negb (isspace c)) s.
Proof.
  assert (forall w ws, Str.join "" (w :: ws) = w +:+ Str.join "" ws) as Hjoin.
  { intros w [| w' ws]; [now rewrite append_empty_r | reflexivity]. }
  induction s as [| c s IH]; [reflexivity |]. simpl.
  destruct (isspace c) eqn:Ec; simpl; [exact IH |].
  destruct (Str.starts_word isspace s).
  - destruct (Str.split isspace s) as [| w ws].
    + simpl in IH. now rewrite <- IH.
    + rewrite Hjoin, append_cons. rewrite Hjoin in IH. now rewrite IH.
  - rewrite Hjoin, IH. reflexivity.
Qed.

Lemma split_nil (s : string) :
  Str.split isspace s = [] <-> Str.all isspace s = true.
Proof.
  induction s as [| c s IH]; [easy |]. simpl.
  destruct (isspace c); simpl; [exact IH |].
  split; [| discriminate].
  destruct (Str.starts_word isspace s); [| discriminate].
  now destruct (Str.split isspace s).
Qed.

(** A whitespace character between two texts separates their words. *)
Lemma split_app_space (sp : ascii) (a b : string) :
  isspace sp = true ->
  Str.split isspace (a +:+ String sp b)
  = Str.split isspace a ++ Str.split isspace b.
Proof.
  intros Hsp. induction a as [| c a IH].
  - change ("" +:+ String sp b) with (String sp b). simpl. now rewrite Hsp.
  - rewrite append_cons. cbn [Str.split].
    destruct (isspace c) eqn:Ec; [exact IH |].
    destruct a as [| c' a].
    + change ("" +:+ String sp b) with (String sp b) in *.
      cbn [Str.starts_word Str.split]. rewrite Hsp. reflexivity.
    + rewrite append_cons in *. cbn [Str.starts_word].
      destruct (negb (isspace c')) eqn:Ec'.
      * rewrite IH.
        pose proof (split_starts_word (String c' a)) as Hne.
        cbn [Str.starts_word] in Hne. specialize (Hne Ec').
        now destruct (Str.split isspace (String c' a)).
      * now rewrite IH.
Qed.

Lemma split_join_space (l : list string) :
  isspace " " = true ->
  Str.split isspace (Str.join " " l) = concat (Str.split isspace <$> l).
Proof.
  intros Hsp. induction l as [| s l IH]; [reflexivity |].
  destruct l as [| s' l].
  - simpl. now rewrite app_nil_r.
  - change (Str.join " " (s :: s' :: l))
      with (s +:+ String " " (Str.join " " (s' :: l))).
    rewrite split_app_space by exact Hsp. rewrite IH. reflexivity.
Qed.

(** [lstrip] and [rstrip]. *)

Lemma lstrip_starts (s : string) :
  Str.lstrip isspace s = "" \/ Str.starts_word isspace (Str.lstrip isspace s) = true.
Proof.
  induction s as [| c s IH]; [now left |]. simpl.
  destruct (isspace c) eqn:Ec; [exact IH |]. right. simpl. now rewrite Ec.
Qed.

Lemma lstrip_id (s : string) :
  Str.starts_word isspace s = true -> Str.lstrip isspace s = s.
Proof.
  destruct s as [| c s]; [discriminate |]. simpl. intros Hc.
  apply negb_true_iff in Hc. now rewrite Hc.
Qed.

Lemma rstrip_starts (s : string) :
  Str.starts_word isspace s = true ->
  Str.starts_word isspace (Str.rstrip isspace s) = true.
Proof.
  destruct s as [| c s]; [discriminate |]. simpl. intros Hc.
  apply negb_true_iff in Hc. rewrite Hc.
  destruct (Str.rstrip isspace s); simpl; now rewrite Hc.
Qed.

Lemma rstrip_ends (s : string) :
  Str.rstrip isspace s = "" \/ ends_word isspace (Str.rstrip isspace s) = true.
Proof.
  induction s as [| c s IH]; [now left |]. simpl.
  destruct (Str.rstrip isspace s) as [| c' r] eqn:Er.
  - destruct (isspace c) eqn:Ec; [now left | right]. simpl. now rewrite Ec.
  - right. destruct IH as [IH | IH]; [discriminate |]. exact IH.
Qed.

Lemma rstrip_id (s : string) :
  ends_word isspace s = true -> Str.rstrip isspace s = s.
Proof.
  induction s as [| c s IH]; [discriminate |].
  destruct s as [| c' s].
  - simpl. intros Hc. apply negb_true_iff in Hc. now rewrite Hc.
  - intros He. change (ends_word isspace (String c' s) = true) in He.
    specialize (IH He).
    change (Str.rstrip isspace (String c (String c' s)))
      with (match Str.rstrip isspace (String c' s) with
            | EmptyString => if isspace c then "" else String c ""
            | r => String c r
            end).
    now rewrite IH.
Qed.

Lemma strip_fixed (s : string) :
  Str.strip isspace s = "" \/
  (Str.starts_word isspace (Str.strip isspace s) = true /\
   ends_word isspace (Str.strip isspace s) = true).
Proof.
  unfold Str.strip.
  destruct (rstrip_ends (Str.lstrip isspace s)) as [E | E]; [now left |].
  right. split; [| exact E].
  destruct (lstrip_starts s) as [E' | E'].
  - rewrite E' in E. discriminate.
  - now apply rstrip_starts.
Qed.

Lemma strip_id (s : string) :
  Str.starts_word isspace s = true -> ends_word isspace s = true ->
  Str.strip isspace s = s.
Proof.
  intros Hs He. unfold Str.strip. rewrite (lstrip_id s Hs). now apply rstrip_id.
Qed.

Lemma strip_strip (s : string) :
  Str.strip isspace (Str.strip isspace s) = Str.strip isspace s.
Proof.
  destruct (strip_fixed s) as [E | [Hs He]].
  - rewrite E. reflexivity.
  - now apply strip_id.
Qed.

(** What is stripped is whitespace. *)
Lemma lstrip_decompose (s : string) :
  exists a, s = a +:+ Str.lstrip isspace s /\ Str.all isspace a = true.
Proof.
  induction s as [| c s (a & Hs & Ha)]; [now exists "" |]. simpl.
  destruct (isspace c) eqn:Ec.
  - exists (String c a). rewrite append_cons, <- Hs. simpl. now rewrite Ec, Ha.
  - now exists "".
Qed.

Lemma rstrip_decompose (s : string) :
  exists b, s = Str.rstrip isspace s +:+ b /\ Str.all isspace b = true.
Proof.
  induction s as [| c s (b & Hs & Hb)]; [now exists "" |]. simpl.
  destruct (Str.rstrip isspace s) as [| c' r] eqn:Er.
  - change ("" +:+ b) with b in Hs. subst b.
    destruct (isspace c) eqn:Ec.
    + exists (String c s). split; [reflexivity |]. simpl. now rewrite Ec, Hb.
    + exists s. now split.
  - exists b. rewrite append_cons, <- Hs. now split.
Qed.

Lemma strip_decompose (s : string) :
  exists a b, s = a +:+ Str.strip isspace s +:+ b /\
              Str.all isspace a = true /\ Str.all isspace b = true.
Proof.
  destruct (lstrip_decompose s) as (a & Hs & Ha).
  destruct (rstrip_decompose (Str.lstrip isspace s)) as (b & Hl & Hb).
  exists a, b. unfold Str.strip. rewrite <- Hl. now split.
Qed.

End Words.

(** ** Headings *)

(** The tag names [f'h{i}'] of the six levels. *)
Lemma heading_tag :
  "h" +:+ pretty 1 = "h1" /\ "h" +:+ pretty 2 = "h2" /\ "h" +:+ pretty 3 = "h3" /\
  "h" +:+ pretty 4 = "h4" /\ "h" +:+ pretty 5 = "h5" /\ "h" +:+ pretty 6 = "h6".
Proof. vm_compute. repeat split. Qed.

Section Headings.
Context `{Runtime}.

Lemma extract_headings_levels (soup : list Node) :
  extract_headings soup =
  headings_of_level soup 1 ++ headings_of_level soup 2 ++
  headings_of_level soup 3 ++ headings_of_level soup 4 ++
  headings_of_level soup 5 ++ headings_of_level soup 6.
Proof.
  unfold extract_headings. cbn [fold_left].
  now rewrite <- !app_assoc.
Qed.

Lemma no_structure_suggestion (r : AnalysisRecord) (s : Suggestion) :
  num_headings (metrics r) <> 0 ->
  s ∈ suggest_improvements r -> category s <> "Structure".
Proof.
  intros Hn. unfold suggest_improvements.
  destruct (Z.eqb_spec (num_headings (metrics r)) 0) as [E | _]; [contradiction |].
  destruct (word_count (metrics r) <? 300),
           (num_gt (avg_sentence_length (metrics r)) 20),
           (num_internal_links (metrics r) <? 2),
           (num_external_links (metrics r) =? 0); cbn [app];
    intros Hs;
    repeat (apply elem_of_cons in Hs as [-> | Hs]; [discriminate |]);
    now apply elem_of_nil in Hs.
Qed.

(** The tags of a forest, a tag before the tags nested in it and
    those before the tags that follow it. *)
Lemma descendants_cons_tag (name : string) (attrs : list (string * string))
    (children rest : list Node) :
  Soup.descendants (NTag name attrs children :: rest) =
  NTag name attrs children :: Soup.descendants children ++ Soup.descendants rest.
Proof.
  unfold Soup.descendants. cbn [flat_map Soup.tags_of app]. reflexivity.
Qed.

Lemma headings_of_level_nil (i : Z) : headings_of_level [] i = [].
Proof. reflexivity. Qed.

Lemma headings_of_level_cons_text (s : string) (rest : list Node) (i : Z) :
  headings_of_level (NText s :: rest) i = headings_of_level rest i.
Proof. reflexivity. Qed.

Lemma headings_of_level_cons_tag (name : string)
    (attrs : list (string * string)) (children rest : list Node) (i : Z) :
  headings_of_level (NTag name attrs children :: rest) i =
  (if decide (name = "h" +:+ pretty i)
   then [Str.strip isspace (Soup.text (NTag name attrs children))] else []) ++
  headings_of_level children i ++ headings_of_level rest i.
Proof.
  unfold headings_of_level, Soup.find_all.
  rewrite descendants_cons_tag, filter_cons, filter_app.
  cbn [Soup.tag_name].
  destruct (decide (name = "h" +:+ pretty i));
    now rewrite ?fmap_cons, fmap_app.
Qed.

(** A heading of a level is the text of a tag of that level without
    the whitespace around it. *)
Lemma heading_of_level_trimmed (soup : list Node) (i : Z) (h : string) :
  h ∈ headings_of_level soup i ->
  exists n a b,
    n ∈ Soup.descendants soup /\
    Soup.tag_name n = "h" +:+ pretty i /\
    Soup.text n = a +:+ h +:+ b /\
    Str.all isspace a = true /\ Str.all isspace b = true /\
    (h = "" \/
     (Str.starts_word isspace h = true /\ ends_word isspace h = true)).
Proof.
  unfold headings_of_level, Soup.find_all. intros Hh.
  apply list_elem_of_fmap in Hh as (n & -> & Hn).
  apply list_elem_of_filter in Hn as [Hname Hn].
  destruct (strip_decompose isspace (Soup.text n)) as (a & b & Ht & Ha & Hb).
  exists n, a, b. split; [exact Hn |]. split; [exact Hname |].
  split; [exact Ht |]. split; [exact Ha |]. split; [exact Hb |].
  apply strip_fixed.
Qed.

(** C6. The headings are collected level by level: the list is the
    [h1] headings, then the [h2] headings, and so on to [h6]. The
    headings of a level are those of the tags of that level in document
    order, wherever they are nested: a tag of the level gives its
    heading, then come the headings inside it, then those of what
    follows it. Each heading is the text of its tag without the
    whitespace at its two ends: the text is whitespace, the heading,
    whitespace, and the heading is empty or begins and ends with a
    character that is not whitespace. An [h1] and an [h2], in either
    order or nested in other tags, give the trimmed [h1] text and then
    the trimmed [h2] text. So an [h1] "Title" and an [h2] "Sub" give
    "Title" and "Sub", also when the [h2] comes first, the two are
    nested in other tags, their texts have spaces around them and the
    text of the [h1] is in pieces. The record holds that list and its
    length as [num_headings], and when the list is not empty no
    suggestion of category Structure is made. *)
Theorem headings_grouped_by_level :
  (forall soup : list Node,
     extract_headings soup =
     headings_of_level soup 1 ++ headings_of_level soup 2 ++
     headings_of_level soup 3 ++ headings_of_level soup 4 ++
     headings_of_level soup 5 ++ headings_of_level soup 6) /\
  (forall i : Z, headings_of_level [] i = []) /\
  (forall (s : string) (rest : list Node) (i : Z),
     headings_of_level (NText s :: rest) i = headings_of_level rest i) /\
  (forall (name : string) (attrs : list (string * string))
          (children rest : list Node) (i : Z),
     headings_of_level (NTag name attrs children :: rest) i =
     (if decide (name = "h" +:+ pretty i)
      then [Str.strip isspace (Soup.text (NTag name attrs children))]
      else []) ++
     headings_of_level children i ++ headings_of_level rest i) /\
  (forall (soup : list Node) (h : string),
     h ∈ extract_headings soup ->
     exists n a b,
       n ∈ Soup.descendants soup /\
       Soup.tag_name n ∈ ["h1"; "h2"; "h3"; "h4"; "h5"; "h6"] /\
       Soup.text n = a +:+ h +:+ b /\
       Str.all isspace a = true /\ Str.all isspace b = true /\
       (h = "" \/
        (Str.starts_word isspace h = true /\ ends_word isspace h = true))) /\
  (forall (a1 a2 : list (string * string)) (t1 t2 : string),
     let h1 := NTag "h1" a1 [NText t1] in
     let h2 := NTag "h2" a2 [NText t2] in
     extract_headings [h1; h2] = [Str.strip isspace t1; Str.strip isspace t2] /\
     extract_headings [h2; h1] = [Str.strip isspace t1; Str.strip isspace t2] /\
     extract_headings [NTag "div" a1 [h2; NTag "p" a2 [h1]]]
     = [Str.strip isspace t1; Str.strip isspace t2]) /\
  (isspace " " = true -> isspace "T" = false -> isspace "e" = false ->
   isspace "S" = false -> isspace "b" = false ->
   extract_headings
     [NTag "h1" [] [NText "Title"]; NTag "h2" [] [NText "Sub"]]
   = ["Title"; "Sub"] /\
   extract_headings
     [NTag "div" []
        [NTag "h2" [("id", "s")] [NText " Sub "];
         NTag "section" []
           [NText "x";
            NTag "h1" [] [NText " Ti"; NTag "b" [] [NText "tle"]; NText " "]]]]
   = ["Title"; "Sub"]) /\
  (forall (url : string) (w w' : World) (r : AnalysisRecord)
          (html : string) (soup : list Node),
     requests_get_text url = Returned html ->
     BeautifulSoup html = Returned soup ->
     analyze_article url w = (Returned (ARecord r), w') ->
     headings r = extract_headings soup /\
     num_headings (metrics r) = Z.of_nat (length (extract_headings soup)) /\
     (extract_headings soup <> [] ->
      forall s, s ∈ suggest_improvements r -> category s <> "Structure")).
Proof.
  split; [exact extract_headings_levels |].
  split; [exact headings_of_level_nil |].
  split; [exact headings_of_level_cons_text |].
  split; [exact headings_of_level_cons_tag |].
  split; [| split; [| split]].
  - intros soup h. rewrite extract_headings_levels, !elem_of_app.
    destruct heading_tag as (E1 & E2 & E3 & E4 & E5 & E6).
    intros [Hh | [Hh | [Hh | [Hh | [Hh | Hh]]]]];
      apply heading_of_level_trimmed in Hh
        as (n & a & b & Hn & Hname & Ht & Ha & Hb & Hends);
      exists n, a, b; (split; [exact Hn |]); (split; [| easy]);
      rewrite Hname, ?E1, ?E2, ?E3, ?E4, ?E5, ?E6;
      apply (bool_decide_unpack _); reflexivity.
  - intros a1 a2 t1 t2 h1 h2. subst h1 h2.
    rewrite !extract_headings_levels.
    repeat (rewrite headings_of_level_cons_tag
            || rewrite headings_of_level_cons_text
            || rewrite headings_of_level_nil).
    destruct heading_tag as (-> & -> & -> & -> & -> & ->).
    repeat (case_decide; [try discriminate | try congruence]).
    cbn [Soup.text app]. now rewrite !append_empty_r.
  - intros Hsp HT He HS Hb.
    assert (Str.strip isspace "Title" = "Title") as S1.
    { unfold Str.strip. cbn [Str.lstrip]. rewrite HT. cbn [Str.rstrip].
      now rewrite He. }
    assert (Str.strip isspace "Sub" = "Sub") as S2.
    { unfold Str.strip. cbn [Str.lstrip]. rewrite HS. cbn [Str.rstrip].
      now rewrite Hb. }
    assert (Str.strip isspace " Title " = "Title") as S3.
    { unfold Str.strip. cbn [Str.lstrip]. rewrite Hsp, HT. cbn [Str.rstrip].
      now rewrite Hsp, He. }
    assert (Str.strip isspace " Sub " = "Sub") as S4.
    { unfold Str.strip. cbn [Str.lstrip]. rewrite Hsp, HS. cbn [Str.rstrip].
      now rewrite Hsp, Hb. }
    rewrite !extract_headings_levels.
    repeat (rewrite headings_of_level_cons_tag
            || rewrite headings_of_level_cons_text
            || rewrite headings_of_level_nil).
    destruct heading_tag as (-> & -> & -> & -> & -> & ->).
    repeat (case_decide; [try discriminate | try congruence]).
    change (Soup.text (NTag "h1" [] [NText "Title"])) with "Title".
    change (Soup.text (NTag "h2" [] [NText "Sub"])) with "Sub".
    change (Soup.text (NTag "h2" [("id", "s")] [NText " Sub "])) with " Sub ".
    change (Soup.text
              (NTag "h1" [] [NText " Ti"; NTag "b" [] [NText "tle"]; NText " "]))
      with " Title ".
    rewrite S1, S2, S3, S4. split; reflexivity.
  - intros url w w' r html soup Hget Hparse Ha.
    apply analyze_article_record in Ha as [[] _].
    assert (html0 = html) as -> by congruence.
    assert (soup0 = soup) as -> by congruence.
    subst r. unfold record_of at 1 2. cbn [headings metrics num_headings].
    split; [reflexivity |]. split; [reflexivity |].
    intros Hne s. apply no_structure_suggestion.
    unfold record_of. cbn [metrics num_headings].
    destruct (extract_headings soup); [contradiction | simpl; lia].
Qed.

End Headings.

(** ** Saving *)




Lemma mapM_fmap_Some {A B} (f : B -> option A) (g : A -> B) (l : list A) :
  (forall x, f (g x) = Some x) -> mapM f (g <$> l) = Some l.
Proof.
  intros Hfg. apply mapM_Some. induction l as [| x l IH]; simpl.
  - constructor.
  - constructor; [apply Hfg | exact IH].
Qed.

Section Saving.
Context `{Runtime}.

Lemma save_analysis_run (a : AnalysisRecord) (approved : bool) (w : World) :
  save_analysis a approved w =
  let path := output_file_name (url a) approved (clock w) in
  match open_w path (files w) with
  | Returned _ =>
      (Returned path,
       {| files := <[path := analysis_json a]> (files w); clock := clock w |})
  | Raised e => (Raised e, w)
  end.
Proof.
  unfold save_analysis. rewrite bind_run. unfold datetime_now at 1.
  cbv zeta. rewrite bind_run. unfold write_json.
  destruct (open_w _ (files w)); reflexivity.
Qed.

(** A save that returned: the path and the world it leaves. *)
Lemma save_analysis_returned (a : AnalysisRecord) (approved : bool)
    (w w' : World) (path : string) :
  save_analysis a approved w = (Returned path, w') ->
  path = output_file_name (url a) approved (clock w) /\
  w' = {| files := <[path := analysis_json a]> (files w); clock := clock w |} /\
  open_w path (files w) = Returned ().
Proof.
  rewrite save_analysis_run. cbv zeta.
  destruct (open_w _ (files w)) as [[] | e] eqn:E; [| discriminate].
  intros [= <- <-]. now repeat split.
Qed.

(** A save changes no file but the one of its name, and never the
    clock, whatever its outcome. *)
Lemma save_analysis_frame (a : AnalysisRecord) (approved : bool)
    (w w' : World) (o : Outcome string) :
  save_analysis a approved w = (o, w') ->
  clock w' = clock w /\
  (forall p, p <> output_file_name (url a) approved (clock w) ->
             files w' !! p = files w !! p) /\
  dom (files w) ⊆ dom (files w') /\
  (forall e, o = Raised e -> w' = w).
Proof.
  rewrite save_analysis_run. cbv zeta.
  destruct (open_w _ (files w)) as [[] | e]; intros [= <- <-].
  - cbn [files clock]. split; [reflexivity |].
    split; [intros p Hp; now apply lookup_insert_ne |].
    split; [rewrite dom_insert_L; set_solver | discriminate].
  - split; [reflexivity |]. split; [reflexivity |]. split; [reflexivity |].
    reflexivity.
Qed.

(** The record is read back from its document. *)
Lemma analysis_of_json (a : AnalysisRecord) :
  Json.analysis (analysis_json a) = Some a.
Proof.
  destruct a as [u at_ [wc avg nh ni ne] hs il el kw].
  unfold Json.analysis, analysis_json, metrics_json. cbn -[mapM].
  assert (Json.num (num_json avg) = Some avg) as -> by now destruct avg.
  cbn -[mapM].
  rewrite (mapM_fmap_Some Json.str JStr) by reflexivity. cbn -[mapM].
  rewrite !(mapM_fmap_Some Json.link link_json) by (now intros []). cbn -[mapM].
  rewrite (mapM_fmap_Some Json.count (fun kv => (kv.1, JInt kv.2)))
    by (now intros []).
  reflexivity.
Qed.


(** C8. A record that [analyze_article] returned and [save_analysis]
    saved is read back whole from the file at the returned path: url,
    timestamp string, metrics, headings, the two lists of links and the
    keyword map with its order. No keyword is twice in the map, so the
    JSON object has no repeated member. *)
Theorem save_then_load (url0 : string) (w0 w1 w w' : World)
    (a : AnalysisRecord) (approved : bool) (path : string) :
  analyze_article url0 w0 = (Returned (ARecord a), w1) ->
  save_analysis a approved w = (Returned path, w') ->
  NoDup (top_keywords a).*1 /\
  exists doc,
    files w' !! path = Some doc /\
    doc = analysis_json a /\
    Json.analysis doc = Some a.
Proof.
  intros Ha Hsave. split.
  - apply analyze_article_record in Ha as [[] _]. subst a.
    unfold record_of. cbn [top_keywords].
    destruct (sort_keywords_take doc) as [-> Hnd]. exact Hnd.
  - apply save_analysis_returned in Hsave as (_ & -> & _). cbn [files].
    exists (analysis_json a).
    split; [apply lookup_insert_eq |]. split; [reflexivity |].
    apply analysis_of_json.
Qed.

End Saving.

(* ===================================================================== *)
(** * Further properties *)

(** ** Words, headings and link texts of a record *)

Section RecordTexts.
Context `{Runtime}.

Lemma sum_list_with_concat_length {A} (ls : list (list A)) :
  length (concat ls) = sum_list_with length ls.
Proof.
  induction ls as [| l ls IH]; [reflexivity |].
  simpl. rewrite length_app. now rewrite IH.
Qed.

Lemma sum_list_with_fmap {A B} (f : B -> nat) (g : A -> B) (l : list A) :
  sum_list_with f (g <$> l) = sum_list_with (fun x => f (g x)) l.
Proof.
  induction l as [| x l IH]; [reflexivity |].
  rewrite fmap_cons. cbn [sum_list_with]. now rewrite IH.
Qed.

(** X1. In a record that [analyze_article] returns, [word_count] is 0
    exactly when every character of the joined paragraph text is
    whitespace, as it is on a page without paragraph; and when the space
    is a whitespace character, [word_count] is the sum over the
    paragraphs of the number of words of each. *)
Theorem word_count_by_paragraph (url : string) (w w' : World)
    (r : AnalysisRecord) (html : string) (soup : list Node) :
  requests_get_text url = Returned html ->
  BeautifulSoup html = Returned soup ->
  analyze_article url w = (Returned (ARecord r), w') ->
  (word_count (metrics r) = 0 <->
   Str.all isspace (paragraphs_text soup) = true) /\
  (Soup.find_all "p" soup = [] -> word_count (metrics r) = 0) /\
  (isspace " " = true ->
   word_count (metrics r)
   = Z.of_nat (sum_list_with
                 (fun p => length (Str.split isspace (Soup.text p)))
                 (Soup.find_all "p" soup))).
Proof.
  intros Hget Hparse Ha. apply analyze_article_record in Ha as [[] _].
  assert (html0 = html) as -> by congruence.
  assert (soup0 = soup) as -> by congruence.
  subst r. unfold record_of. cbn [metrics word_count].
  split; [| split].
  - rewrite <- split_nil. split.
    + intros E. apply length_zero_iff_nil. lia.
    + now intros ->.
  - unfold paragraphs_text. now intros ->.
  - intros Hsp. unfold paragraphs_text. rewrite split_join_space by exact Hsp.
    rewrite sum_list_with_concat_length, !sum_list_with_fmap. reflexivity.
Qed.

Lemma headings_trimmed (soup : list Node) (h : string) :
  h ∈ extract_headings soup -> Str.strip isspace h = h.
Proof.
  rewrite extract_headings_levels, !elem_of_app. unfold headings_of_level.
  rewrite !list_elem_of_fmap.
  intros Hin.
  repeat destruct Hin as [Hin | Hin];
    destruct Hin as (n & -> & _); apply strip_strip.
Qed.

Lemma link_texts_trimmed (domain : string) (soup : list Node) (l : LinkRef) :
  l ∈ (classify_links domain soup).1 ++ (classify_links domain soup).2 ->
  Str.strip isspace (link_text l) = link_text l.
Proof.
  rewrite classify_links_filter. cbn [fst snd].
  rewrite filter_app_complement, list_elem_of_fmap.
  intros (a & -> & _). unfold link_of. cbn [link_text]. apply strip_strip.
Qed.

(** X2. In a record that [analyze_article] returns, every heading and
    every link text is trimmed: stripping it again changes nothing, and
    it is empty or begins and ends with a character that is not
    whitespace. *)
Theorem record_texts_trimmed (url : string) (w w' : World) (r : AnalysisRecord)
    (s : string) :
  analyze_article url w = (Returned (ARecord r), w') ->
  s ∈ headings r ++ (link_text <$> internal_links r ++ external_links r) ->
  Str.strip isspace s = s /\
  (s = "" \/
   (Str.starts_word isspace s = true /\ ends_word isspace s = true)).
Proof.
  intros Ha Hs. apply analyze_article_record in Ha as [[] _]. subst r.
  unfold record_of in Hs. cbn [headings internal_links external_links] in Hs.
  assert (Str.strip isspace s = s) as E.
  { apply elem_of_app in Hs as [Hs | Hs].
    - now apply (headings_trimmed soup).
    - apply list_elem_of_fmap in Hs as (l & -> & Hl).
      now apply (link_texts_trimmed domain soup). }
  split; [exact E |]. rewrite <- E. apply strip_fixed.
Qed.

End RecordTexts.

(** ** The domain of the url *)

Lemma strip_prefix_Some (p s r : string) :
  Str.strip_prefix p s = Some r -> s = p +:+ r.
Proof.
  revert s. induction p as [| a p IH]; intros s; simpl.
  - now intros [= ->].
  - destruct s as [| b s]; [discriminate |].
    destruct (Ascii.eqb_spec a b) as [-> | _]; [| discriminate].
    intros E. rewrite append_cons. now rewrite (IH s E).
Qed.

Lemma strip_prefix_append (p r : string) :
  Str.strip_prefix p (p +:+ r) = Some r.
Proof.
  induction p as [| a p IH]; [reflexivity |].
  rewrite append_cons. simpl. now rewrite Ascii.eqb_refl.
Qed.

Lemma take_while_all (f : ascii -> bool) (s : string) :
  Str.all f (Str.take_while f s) = true.
Proof.
  induction s as [| c s IH]; [reflexivity |]. simpl.
  destruct (f c) eqn:E; [| reflexivity]. simpl. now rewrite E.
Qed.

Lemma take_while_prefix (f : ascii -> bool) (s : string) :
  exists rest, s = Str.take_while f s +:+ rest.
Proof.
  induction s as [| c s [rest IH]]; [now exists "" |]. simpl.
  destruct (f c).
  - exists rest. rewrite append_cons. now rewrite <- IH.
  - now exists (String c s).
Qed.

Lemma contains_append (p a b : string) :
  Str.contains p (a +:+ p +:+ b) = true.
Proof.
  induction a as [| c a IH].
  - change ("" +:+ p +:+ b) with (p +:+ b).
    destruct (p +:+ b) eqn:E; simpl; rewrite <- E, strip_prefix_append;
      reflexivity.
  - rewrite append_cons. simpl.
    destruct (Str.strip_prefix p (String c (a +:+ p +:+ b))); [reflexivity |].
    exact IH.
Qed.

(** What a group captured by [[^/]+] is: a non-empty run without slash
    at the start of [host]. *)
Lemma domain_group (host g : string) :
  Re.nonempty (Str.take_while Re.not_slash host) = Some g ->
  g <> "" /\ Str.all Re.not_slash g = true /\ exists rest, host = g +:+ rest.
Proof.
  intros E.
  assert (g = Str.take_while Re.not_slash host) as ->.
  { destruct (Str.take_while Re.not_slash host); [discriminate |].
    now injection E. }
  split; [| split].
  - intros E'. rewrite E' in E. discriminate.
  - apply take_while_all.
  - apply take_while_prefix.
Qed.

Lemma match_domain_Some (s g : string) :
  Re.match_domain s = Some g ->
  g <> "" /\ Str.all Re.not_slash g = true /\
  exists a b, s = a +:+ g +:+ b.
Proof.
  unfold Re.match_domain.
  destruct (Str.strip_prefix "http" s) as [r |] eqn:Ehttp; [| discriminate].
  apply strip_prefix_Some in Ehttp.
  set (r' := match Str.strip_prefix "s" r with Some r' => r' | None => r end).
  assert (exists pre, s = pre +:+ r') as [pre Hpre].
  { subst r'. destruct (Str.strip_prefix "s" r) as [r1 |] eqn:Es.
    - apply strip_prefix_Some in Es. exists "https". now rewrite Ehttp, Es.
    - now exists "http". }
  destruct (Str.strip_prefix "://" r') as [host |] eqn:Esep; [| discriminate].
  apply strip_prefix_Some in Esep.
  assert (forall h pre', s = pre' +:+ h ->
            Re.nonempty (Str.take_while Re.not_slash h) = Some g ->
            g <> "" /\ Str.all Re.not_slash g = true /\
            exists a b, s = a +:+ g +:+ b) as Hgroup.
  { intros h pre' Hs Eg. destruct (domain_group h g Eg) as (Hne & Hall & rest & Hh).
    split; [exact Hne |]. split; [exact Hall |].
    exists pre', rest. now rewrite Hs, Hh. }
  assert (s = (pre +:+ "://") +:+ host) as Hhost.
  { rewrite Hpre, Esep. now rewrite !append_assoc. }
  destruct (Str.strip_prefix "www." host) as [rest |] eqn:Ewww.
  - apply strip_prefix_Some in Ewww.
    destruct (Re.nonempty (Str.take_while Re.not_slash rest)) as [g1 |] eqn:Eg1.
    + intros [= ->]. apply (Hgroup rest ((pre +:+ "://") +:+ "www.")); [| exact Eg1].
      rewrite Hhost, Ewww. now rewrite !append_assoc.
    + apply (Hgroup host _ Hhost).
  - apply (Hgroup host _ Hhost).
Qed.

Lemma findall_domain_Returned (url g : string) :
  Re.findall_domain_0 url = Returned g ->
  g <> "" /\ Str.all Re.not_slash g = true /\
  exists a b, url = a +:+ g +:+ b.
Proof.
  induction url as [| c url IH]; cbn [Re.findall_domain_0].
  - discriminate.
  - destruct (Re.match_domain (String c url)) eqn:E.
    + intros [= ->]. now apply match_domain_Some.
    + intros Hrest. destruct (IH Hrest) as (Hne & Hall & a & b & Hab).
      split; [exact Hne |]. split; [exact Hall |].
      exists (String c a), b. rewrite append_cons. now rewrite <- Hab.
Qed.

Lemma match_domain_http (s : string) :
  Str.strip_prefix "http" s = None -> Re.match_domain s = None.
Proof. unfold Re.match_domain. now intros ->. Qed.

Lemma findall_domain_no_http (url : string) :
  Str.contains "http" url = false -> Re.findall_domain_0 url = Raised index_error.
Proof.
  induction url as [| c url IH]; [reflexivity |].
  cbn [Str.contains Re.findall_domain_0].
  destruct (Str.strip_prefix "http" (String c url)) eqn:E; [discriminate |].
  intros Hrest. rewrite (match_domain_http _ E). now apply IH.
Qed.

Section Domain.
Context `{Runtime}.

(** X3. The domain taken from the url is not empty, has no slash and is
    a part of the url; so in a record that [analyze_article] returns, an
    anchor whose [href] is the url of the page itself is among the
    internal links. *)
Theorem domain_of_url (url domain : string) :
  Re.findall_domain_0 url = Returned domain ->
  domain <> "" /\
  Str.all Re.not_slash domain = true /\
  (exists a b, url = a +:+ domain +:+ b) /\
  Str.contains domain url = true /\
  (forall (w w' : World) (r : AnalysisRecord) (html : string)
          (soup : list Node) (a : Node),
     requests_get_text url = Returned html ->
     BeautifulSoup html = Returned soup ->
     analyze_article url w = (Returned (ARecord r), w') ->
     a ∈ Soup.find_all_href "a" soup ->
     Soup.get "href" (Soup.tag_attrs a) = Some url ->
     link_of a ∈ internal_links r).
Proof.
  intros Hd. destruct (findall_domain_Returned url domain Hd)
    as (Hne & Hall & a & b & Hab).
  assert (Str.contains domain url = true) as Hc.
  { rewrite Hab. apply contains_append. }
  split; [exact Hne |]. split; [exact Hall |].
  split; [now exists a, b |]. split; [exact Hc |].
  intros w w' r html soup n Hget Hparse Ha Hn Hhref.
  apply analyze_article_record in Ha as [[] _].
  assert (html0 = html) as -> by congruence.
  assert (soup0 = soup) as -> by congruence.
  assert (domain0 = domain) as -> by congruence.
  subst r. unfold record_of. cbn [internal_links].
  rewrite classify_links_filter. cbn [fst].
  apply list_elem_of_filter. split.
  - unfold is_internal, link_of. cbn [link_href]. now rewrite Hhref.
  - apply list_elem_of_fmap. now exists n.
Qed.

(** X4. A url in which [http] does not occur has no domain: whatever
    the fetch gives, [analyze_article] returns an error, and when the
    stages before the extraction of the domain return, the error is the
    message of the [IndexError]. *)
Theorem url_without_scheme (url : string) (w : World) :
  Str.contains "http" url = false ->
  exists msg,
    analyze_article url w = (Returned (AnError msg), w) /\
    forall html soup sentences,
      requests_get_text url = Returned html ->
      BeautifulSoup html = Returned soup ->
      sent_tokenize (paragraphs_text soup) = Returned sentences ->
      msg = "list index out of range".
Proof.
  intros Hno. apply findall_domain_no_http in Hno.
  unfold analyze_article, try_except. rewrite analyze_article_try_run, Hno.
  destruct (requests_get_text url) as [html | e] eqn:Eget;
    [| eexists; split; [reflexivity | intros; congruence]].
  destruct (BeautifulSoup html) as [soup | e] eqn:Eparse;
    [| eexists; split; [reflexivity | intros; congruence]].
  cbv zeta.
  destruct (sent_tokenize (paragraphs_text soup)) as [sentences | e] eqn:Esent.
  - rewrite average_run. eexists. split; reflexivity.
  - eexists. split; [reflexivity |].
    intros html' soup' sentences' Hh Hs Ht.
    assert (html' = html) as -> by congruence.
    assert (soup' = soup) as -> by congruence. congruence.
Qed.

End Domain.

(** ** File names *)

Section FileNames.
Variable isalnum : ascii -> bool.

Lemma sanitize_all (s : string) :
  Str.all (Re.filename_char isalnum) (Re.sanitize isalnum s) = true.
Proof.
  unfold Re.sanitize. induction s as [| c s IH]; [reflexivity |]. simpl.
  rewrite IH, andb_true_r.
  destruct (Re.filename_char isalnum c) eqn:E; [exact E |].
  unfold Re.filename_char. simpl. now rewrite !orb_true_r.
Qed.

Lemma sanitize_fixed (s : string) :
  Str.all (Re.filename_char isalnum) s = true -> Re.sanitize isalnum s = s.
Proof.
  unfold Re.sanitize. induction s as [| c s IH]; [reflexivity |]. simpl.
  intros [Hc Hs]%andb_true_iff. rewrite Hc. now rewrite (IH Hs).
Qed.

Lemma all_impl (f g : ascii -> bool) (s : string) :
  (forall c, f c = true -> g c = true) ->
  Str.all f s = true -> Str.all g s = true.
Proof.
  intros Hfg. induction s as [| c s IH]; [reflexivity |]. simpl.
  intros [Hc Hs]%andb_true_iff. now rewrite (Hfg c Hc), (IH Hs).
Qed.

Lemma filename_char_not_slash (c : ascii) :
  isalnum "/" = false ->
  Re.filename_char isalnum c = true -> Re.not_slash c = true.
Proof.
  intros Hslash Hc. unfold Re.not_slash.
  destruct (Ascii.eqb_spec c "/") as [-> | _]; [| reflexivity].
  unfold Re.filename_char in Hc. rewrite Hslash in Hc. discriminate.
Qed.

End FileNames.

Lemma digit_not_slash (z : Z) : Re.not_slash (Date.digit z) = true.
Proof.
  unfold Date.digit.
  assert (0 <= z mod 10 < 10) as Hz by (apply Z.mod_pos_bound; lia).
  assert (exists d : nat, Z.to_nat (z mod 10) = d /\ (d < 10)%nat) as (d & -> & Hd).
  { exists (Z.to_nat (z mod 10)). split; [reflexivity | lia]. }
  do 10 (destruct d as [| d]; [reflexivity |]). lia.
Qed.

Lemma zfill_not_slash (width : nat) (z : Z) :
  Str.all Re.not_slash (Date.zfill width z) = true.
Proof.
  revert z. induction width as [| n IH]; intros z; [reflexivity |].
  cbn [Date.zfill]. rewrite all_append, IH. cbn [Str.all andb].
  now rewrite digit_not_slash.
Qed.

Lemma strftime_not_slash (t : DateTime) :
  Str.all Re.not_slash (Date.strftime t) = true.
Proof.
  unfold Date.strftime. rewrite !all_append, !zfill_not_slash. reflexivity.
Qed.

Lemma zfill_length (width : nat) (z : Z) :
  String.length (Date.zfill width z) = width.
Proof.
  revert z. induction width as [| n IH]; intros z; [reflexivity |].
  cbn [Date.zfill]. rewrite append_length, IH. cbn [String.length]. lia.
Qed.

Lemma digit_inj (z z' : Z) :
  Date.digit z = Date.digit z' -> z mod 10 = z' mod 10.
Proof.
  unfold Date.digit. intros E.
  assert (0 <= z mod 10 < 10) as Hz by (apply Z.mod_pos_bound; lia).
  assert (0 <= z' mod 10 < 10) as Hz' by (apply Z.mod_pos_bound; lia).
  apply (f_equal nat_of_ascii) in E.
  rewrite !nat_ascii_embedding in E by lia. lia.
Qed.

Lemma zfill_inj (width : nat) (z z' : Z) :
  0 <= z < 10 ^ Z.of_nat width -> 0 <= z' < 10 ^ Z.of_nat width ->
  Date.zfill width z = Date.zfill width z' -> z = z'.
Proof.
  revert z z'. induction width as [| n IH]; intros z z' Hz Hz'.
  - simpl in Hz, Hz'. lia.
  - cbn [Date.zfill]. intros E.
    apply append_inv in E as [E1 E2]; [| now rewrite !zfill_length].
    injection E2 as E2. apply digit_inj in E2.
    rewrite Nat2Z.inj_succ, Z.pow_succ_r in Hz, Hz' by lia.
    assert (z / 10 = z' / 10) as Hq.
    { apply IH; [| | exact E1].
      - split; [apply Z.div_pos; lia | apply Z.div_lt_upper_bound; lia].
      - split; [apply Z.div_pos; lia | apply Z.div_lt_upper_bound; lia]. }
    rewrite (Z.div_mod z 10), (Z.div_mod z' 10) by lia. now rewrite Hq, E2.
Qed.

Lemma strftime_inj (t t' : DateTime) :
  printable t -> printable t' ->
  Date.strftime t = Date.strftime t' -> same_second t t'.
Proof.
  intros (Hy & Hmo & Hd & Hh & Hmi & Hs) (Hy' & Hmo' & Hd' & Hh' & Hmi' & Hs').
  unfold Date.strftime. intros E.
  apply append_inv in E as [Ey E]; [| now rewrite !zfill_length].
  apply append_inv in E as [Emo E]; [| now rewrite !zfill_length].
  apply append_inv in E as [Ed E]; [| now rewrite !zfill_length].
  apply append_inv_head in E.
  apply append_inv in E as [Eh E]; [| now rewrite !zfill_length].
  apply append_inv in E as [Emi Es]; [| now rewrite !zfill_length].
  repeat split; eapply zfill_inj; try eassumption; simpl; lia.
Qed.

Section SavedFiles.
Context `{Runtime}.

Lemma output_file_name_eq (url : string) (approved : bool) (now : DateTime) :
  output_file_name url approved now = "results/" +:+ file_name url approved now.
Proof. reflexivity. Qed.

(** X5. Cleaning a url twice is cleaning it once, and a cleaned url has
    only alphanumeric characters, underscores, hyphens and dots. When the
    slash is not alphanumeric, a path that [save_analysis] returns is
    [results/] followed by a file name without slash, and whatever the
    outcome of the save, a file it created or changed has such a path: a
    url cannot send the file to another directory. *)
Theorem saved_file_stays_in_results (a : AnalysisRecord) (approved : bool)
    (w w' : World) (o : Outcome string) :
  Re.sanitize isalnum (Re.sanitize isalnum (url a)) = Re.sanitize isalnum (url a) /\
  Str.all (Re.filename_char isalnum) (Re.sanitize isalnum (url a)) = true /\
  (isalnum "/" = false ->
   save_analysis a approved w = (o, w') ->
   (forall path, o = Returned path ->
      exists name, path = "results/" +:+ name /\
                   Str.all Re.not_slash name = true) /\
   (forall p, files w' !! p <> files w !! p ->
      exists name, p = "results/" +:+ name /\
                   Str.all Re.not_slash name = true)).
Proof.
  split; [apply sanitize_fixed, sanitize_all |]. split; [apply sanitize_all |].
  intros Hslash Hsave.
  assert (Str.all Re.not_slash (file_name (url a) approved (clock w)) = true)
    as Hname.
  { unfold file_name. rewrite !all_append, strftime_not_slash.
    rewrite (all_impl _ _ _ (fun c => filename_char_not_slash isalnum c Hslash)
               (sanitize_all isalnum (url a))).
    now destruct approved. }
  split.
  - intros path ->. apply save_analysis_returned in Hsave as (-> & _ & _).
    now exists (file_name (url a) approved (clock w)).
  - intros p Hp. apply save_analysis_frame in Hsave as (_ & Hframe & _).
    destruct (decide (p = output_file_name (url a) approved (clock w)))
      as [-> | Hne].
    + now exists (file_name (url a) approved (clock w)).
    + now specialize (Hframe p Hne).
Qed.

Lemma output_file_name_seconds (url : string) (approved : bool)
    (t t' : DateTime) :
  printable t -> printable t' ->
  output_file_name url approved t = output_file_name url approved t' ->
  same_second t t'.
Proof.
  intros Ht Ht'. unfold output_file_name. cbv zeta. intros E.
  do 5 apply append_inv_head in E.
  apply append_inv in E as [E _];
    [| unfold Date.strftime; now rewrite !append_length, !zfill_length].
  now apply strftime_inj.
Qed.

(** X6. Two saves of a record with the same flag that both returned,
    at two times that are not in the same second (the fields of both
    within the digits printed), went to two different files: after the
    second save both files hold the document of the record, and when
    neither was there before, there are two files more. *)
Theorem saves_in_different_seconds (a : AnalysisRecord) (approved : bool)
    (w w1 w2 : World) (later : DateTime) (p1 p2 : string) :
  printable (clock w) -> printable later ->
  ~ same_second (clock w) later ->
  save_analysis a approved w = (Returned p1, w1) ->
  save_analysis a approved {| files := files w1; clock := later |}
  = (Returned p2, w2) ->
  p1 <> p2 /\
  files w2 !! p1 = Some (analysis_json a) /\
  files w2 !! p2 = Some (analysis_json a) /\
  (files w !! p1 = None -> files w !! p2 = None ->
   size (files w2) = S (S (size (files w)))).
Proof.
  intros Hw Hl Hdiff Hs1 Hs2.
  apply save_analysis_returned in Hs1 as (E1 & -> & _).
  apply save_analysis_returned in Hs2 as (E2 & -> & _).
  cbn [files clock] in *.
  assert (p1 <> p2) as Hne.
  { intros E. apply Hdiff. apply (output_file_name_seconds (url a) approved);
      [exact Hw | exact Hl | congruence]. }
  split; [exact Hne |]. split; [| split].
  - rewrite lookup_insert_ne by congruence. apply lookup_insert_eq.
  - apply lookup_insert_eq.
  - intros Hn1 Hn2. rewrite map_size_insert_None.
    + now rewrite map_size_insert_None.
    + rewrite lookup_insert_ne by exact Hne. exact Hn2.
Qed.


(** [display_analysis] as the saves it makes: the second is not reached
    when the first raises. *)
Lemma display_analysis_eq (a : AnalysisRecord) (b : Buttons) (w : World) :
  display_analysis a b w =
  match (if save_clicked b then save_analysis a false w
         else (Returned "", w)) with
  | (Returned _, w1) =>
      if approve_clicked b then
        match save_analysis a true w1 with
        | (Returned _, w2) => (Returned (), w2)
        | (Raised e, w2) => (Raised e, w2)
        end
      else (Returned (), w1)
  | (Raised e, w1) => (Raised e, w1)
  end.
Proof.
  unfold display_analysis. cbv zeta.
  destruct b as [[] []]; cbn [save_clicked approve_clicked].
  - rewrite 2!bind_run.
    destruct (save_analysis a false w) as [[p1 | e1] w1]; [| reflexivity].
    rewrite ret_run, bind_run.
    now destruct (save_analysis a true w1) as [[p2 | e2] w2].
  - rewrite 2!bind_run.
    now destruct (save_analysis a false w) as [[p1 | e1] w1].
  - rewrite bind_run, ret_run, bind_run.
    now destruct (save_analysis a true w) as [[p2 | e2] w2].
  - reflexivity.
Qed.


End SavedFiles.

(** ** More on the keywords *)

Lemma total_count_app (d d' : list (string * Z)) :
  total_count (d ++ d') = total_count d + total_count d'.
Proof.
  unfold total_count. induction d as [| kv d IH]; simpl; [lia |].
  rewrite IH. lia.
Qed.

Lemma total_count_set (k : string) (v : Z) (d : list (string * Z)) :
  total_count (Dict.set k v d) = total_count d - Dict.get k d 0 + v.
Proof.
  induction d as [| [k0 v0] d IH]; [unfold total_count; simpl; lia |].
  cbn [Dict.set Dict.get]. destruct (String.eqb k0 k).
  - unfold total_count. simpl. lia.
  - change (total_count ((k0, v0) :: Dict.set k v d))
      with (v0 + total_count (Dict.set k v d)).
    change (total_count ((k0, v0) :: d)) with (v0 + total_count d).
    rewrite IH. lia.
Qed.

Lemma total_count_perm (d d' : list (string * Z)) :
  d ≡ₚ d' -> total_count d = total_count d'.
Proof.
  unfold total_count. induction 1; simpl; lia.
Qed.

Lemma filter_insert_desc (c : Z) (x : string * Z) (l : list (string * Z)) :
  filter (fun e => e.2 = c) (Dict.insert_desc x l)
  = filter (fun e => e.2 = c) (x :: l).
Proof.
  induction l as [| y l IH]; [reflexivity |].
  cbn [Dict.insert_desc]. destruct (Z.ltb_spec (x.2) (y.2)) as [Hlt | _];
    [| reflexivity].
  rewrite (filter_cons _ y), IH, !(filter_cons _ x), (filter_cons _ y).
  repeat case_decide; try reflexivity; lia.
Qed.

(** The sort is stable: the entries of one count keep their order. *)
Lemma sorted_by_count_desc_stable (c : Z) (l : list (string * Z)) :
  filter (fun e => e.2 = c) (Dict.sorted_by_count_desc l)
  = filter (fun e => e.2 = c) l.
Proof.
  induction l as [| x l IH]; [reflexivity |].
  cbn [Dict.sorted_by_count_desc foldr].
  rewrite filter_insert_desc, !(filter_cons _ x).
  change (foldr Dict.insert_desc [] l) with (Dict.sorted_by_count_desc l).
  now rewrite IH.
Qed.

Lemma first_occurrences_snoc (ws : list string) (x : string) :
  first_occurrences (ws ++ [x])
  = if decide (x ∈ ws) then first_occurrences ws else first_occurrences ws ++ [x].
Proof.
  unfold first_occurrences. rewrite reverse_app. simpl.
  destruct (decide_rel elem_of x (reverse ws)) as [Hin | Hout].
  - rewrite decide_True; [reflexivity | now apply elem_of_reverse].
  - rewrite decide_False; [| intros Hx; apply Hout; now apply elem_of_reverse].
    now rewrite reverse_cons.
Qed.

Section KeywordOrder.
Context `{Runtime}.

Lemma count_step_total (d : list (string * Z)) (t : Token) :
  total_count (count_step d t)
  = total_count d + (if is_keyword t then 1 else 0).
Proof.
  unfold count_step. destruct (is_keyword t); [| lia].
  rewrite total_count_set. lia.
Qed.

Lemma count_fold_total (doc : list Token) (d : list (string * Z)) :
  total_count (fold_left count_step doc d)
  = total_count d + Z.of_nat (length (filter (fun t => is_keyword t = true) doc)).
Proof.
  revert d. induction doc as [| t doc IH]; intros d; simpl; [lia |].
  rewrite IH, count_step_total, filter_cons.
  destruct (is_keyword t) eqn:E.
  - rewrite decide_True by reflexivity. simpl length. lia.
  - rewrite decide_False by discriminate. lia.
Qed.

Lemma count_step_keys (ws : list string) (d : list (string * Z)) (t : Token) :
  d.*1 = first_occurrences ws ->
  (count_step d t).*1 = first_occurrences (ws ++ counted_words [t]).
Proof.
  intros Hd. unfold count_step, counted_words.
  rewrite filter_cons, filter_nil.
  destruct (is_keyword t) eqn:E.
  - rewrite decide_True by reflexivity.
    change ((fun t0 => str_lower (tok_text t0)) <$> [t])
      with [str_lower (tok_text t)].
    set (k := str_lower (tok_text t)).
    rewrite first_occurrences_snoc.
    assert (k ∈ ws <-> k ∈ d.*1) as Hk.
    { rewrite Hd. unfold first_occurrences.
      rewrite elem_of_reverse, elem_of_remove_dups, elem_of_reverse. tauto. }
    destruct (decide (k ∈ ws)) as [Hin | Hout].
    + rewrite dict_set_keys by now apply Hk. exact Hd.
    + rewrite dict_set_fresh by (intros Hx; now apply Hout, Hk).
      rewrite fmap_app. simpl. now rewrite Hd.
  - rewrite decide_False by discriminate. simpl. now rewrite app_nil_r.
Qed.

Lemma count_fold_keys (doc : list Token) (ws : list string)
    (d : list (string * Z)) :
  d.*1 = first_occurrences ws ->
  (fold_left count_step doc d).*1 = first_occurrences (ws ++ counted_words doc).
Proof.
  revert ws d. induction doc as [| t doc IH]; intros ws d Hd; simpl.
  - unfold counted_words. rewrite filter_nil. simpl. now rewrite app_nil_r.
  - change (t :: doc) with ([t] ++ doc).
    rewrite counted_words_app, app_assoc. apply IH. now apply count_step_keys.
Qed.

(** X8. The counts of the keyword dict add up to the number of tokens
    kept (not stop words, alphabetic, longer than 2); its keys are the
    lower-cased words in the order of their first occurrence. When there
    are at most 10 different words, [top_keywords] is a rearrangement of
    the whole dict and its counts add up to the same number. *)
Theorem count_keywords_total (doc : list Token) :
  total_count (count_keywords doc)
  = Z.of_nat (length (filter (fun t => is_keyword t = true) doc)) /\
  (count_keywords doc).*1 = first_occurrences (counted_words doc) /\
  ((length (count_keywords doc) <= 10)%nat ->
   sort_keywords (count_keywords doc) ≡ₚ count_keywords doc /\
   total_count (sort_keywords (count_keywords doc))
   = Z.of_nat (length (filter (fun t => is_keyword t = true) doc))).
Proof.
  assert (total_count (count_keywords doc)
          = Z.of_nat (length (filter (fun t => is_keyword t = true) doc))) as Htotal.
  { unfold count_keywords. now rewrite count_fold_total. }
  split; [exact Htotal |]. split.
  - unfold count_keywords. now apply (count_fold_keys doc [] []).
  - intros Hlen. destruct (sort_keywords_take doc) as [-> _].
    assert (take 10 (Dict.sorted_by_count_desc (count_keywords doc))
            ≡ₚ count_keywords doc) as Hperm.
    { rewrite take_ge; [apply sorted_by_count_desc_perm |].
      now rewrite sorted_by_count_desc_perm. }
    split; [exact Hperm |]. now rewrite (total_count_perm _ _ Hperm).
Qed.

(** X9. In [top_keywords] the entries of one count come in the order in
    which they are in the keyword dict, that of the first occurrence of
    their words: for each count, the entries of [top_keywords] with that
    count are the first of the entries of the dict with that count. *)
Theorem top_keywords_ties (doc : list Token) (c : Z) :
  filter (fun e => e.2 = c) (sort_keywords (count_keywords doc))
  `prefix_of` filter (fun e => e.2 = c) (count_keywords doc).
Proof.
  destruct (sort_keywords_take doc) as [-> _].
  rewrite <- (sorted_by_count_desc_stable c (count_keywords doc)).
  rewrite <- (take_drop 10 (Dict.sorted_by_count_desc (count_keywords doc))) at 2.
  rewrite filter_app. now apply prefix_app_r.
Qed.

End KeywordOrder.

(** ** More on the suggestions *)

(** X10. [suggest_improvements] returns no suggestion exactly when the
    page has at least 300 words, an average sentence length of at most
    20, a heading, at least 2 internal links and an external link. It
    never returns more than 5 suggestions, and never two of one
    category. *)
Theorem no_suggestion_iff (a : AnalysisRecord) :
  (suggest_improvements a = [] <->
   300 <= word_count (metrics a) /\
   (Rules.value (avg_sentence_length (metrics a)) <= inject_Z 20)%Q /\
   num_headings (metrics a) <> 0 /\
   2 <= num_internal_links (metrics a) /\
   num_external_links (metrics a) <> 0) /\
  (length (suggest_improvements a) <= 5)%nat /\
  NoDup (category <$> suggest_improvements a).
Proof.
  unfold suggest_improvements.
  destruct (metrics a) as [wc avg nh ni ne]; cbn [word_count
    avg_sentence_length num_headings num_internal_links num_external_links].
  assert (num_gt avg 20 = false <-> (Rules.value avg <= inject_Z 20)%Q) as Havg.
  { rewrite <- not_true_iff_false, num_gt_spec. split.
    - apply Qnot_lt_le.
    - intros Hle Hlt. exact (Qlt_not_le _ _ Hlt Hle). }
  destruct (Z.ltb_spec wc 300), (num_gt avg 20) eqn:Eavg, (Z.eqb_spec nh 0),
    (Z.ltb_spec ni 2), (Z.eqb_spec ne 0); cbn [app length fmap list_fmap].
  all: split; [| split; [lia |]].
  all: try (split; [discriminate | intros (? & ? & ? & ? & ?)];
            first [lia | contradiction
                  | (assert (true = false) by (now apply Havg)); discriminate]).
  all: try (split; [intros _ | reflexivity];
            repeat split; try lia; try assumption; now apply Havg).
  all: apply (bool_decide_unpack _); vm_compute; exact I.
Qed.

(** ** The bulk loop *)

Lemma split_on_nonempty (sep : ascii) (s : string) : Str.split_on sep s <> [].
Proof.
  destruct s as [| c s]; [discriminate |]. simpl.
  destruct (Ascii.eqb c sep); [discriminate |].
  now destruct (Str.split_on sep s).
Qed.

Lemma split_on_append (sep : ascii) (a b : string) :
  Str.split_on sep (a +:+ String sep b)
  = Str.split_on sep a ++ Str.split_on sep b.
Proof.
  induction a as [| c a IH].
  - change ("" +:+ String sep b) with (String sep b). simpl.
    now rewrite Ascii.eqb_refl.
  - rewrite append_cons. cbn [Str.split_on]. rewrite IH.
    destruct (Ascii.eqb c sep); [reflexivity |].
    pose proof (split_on_nonempty sep a) as Hne.
    now destruct (Str.split_on sep a).
Qed.

Lemma split_on_one (sep : ascii) (s : string) :
  Str.all (fun c => negb (Ascii.eqb c sep)) s = true ->
  Str.split_on sep s = [s].
Proof.
  induction s as [| c s IH]; [reflexivity |]. simpl.
  intros [Hc Hs]%andb_true_iff. apply negb_true_iff in Hc.
  now rewrite Hc, (IH Hs).
Qed.

Section Bulk.
Context `{Runtime}.

Lemma for_each_app {A} (l1 l2 : list A) (body : A -> M unit) (w : World) :
  for_each (l1 ++ l2) body w =
  match for_each l1 body w with
  | (Returned _, w') => for_each l2 body w'
  | (Raised e, w') => (Raised e, w')
  end.
Proof.
  revert w. induction l1 as [| x l1 IH]; intros w; [reflexivity |].
  cbn [app for_each]. rewrite !bind_run.
  destruct (body x w) as [[[] | e] w1]; [apply IH | reflexivity].
Qed.

(** An error does not depend on the world. *)
Lemma analyze_article_error_any_world (url msg : string) (w w1 w' : World) :
  analyze_article url w = (Returned (AnError msg), w1) ->
  analyze_article url w' = (Returned (AnError msg), w').
Proof.
  unfold analyze_article, try_except. rewrite !analyze_article_try_run.
  destruct (requests_get_text url) as [html | e]; [| now intros [= <- _]].
  destruct (BeautifulSoup html) as [soup | e]; [| now intros [= <- _]].
  cbv zeta.
  destruct (sent_tokenize (paragraphs_text soup)) as [sentences | e];
    [| now intros [= <- _]].
  rewrite !average_run.
  destruct (Re.findall_domain_0 url) as [domain | e]; [| now intros [= <- _]].
  destruct (nlp (paragraphs_text soup)) as [doc | e]; [| now intros [= <- _]].
  discriminate.
Qed.

Lemma analyze_article_never_returns_raise (url : string) (w : World) :
  exists a, analyze_article url w = (Returned a, w).
Proof.
  pose proof (analyze_article_try_world url w) as Hw.
  unfold analyze_article, try_except.
  destruct (analyze_article_try url w) as [[a | e] w1]; simpl in Hw; subst w1;
    eexists; reflexivity.
Qed.

(** Whatever its outcome, [display_analysis] leaves the clock alone and
    removes no file. *)
Lemma display_analysis_frame (a : AnalysisRecord) (b : Buttons)
    (w w' : World) (o : Outcome unit) :
  display_analysis a b w = (o, w') ->
  clock w' = clock w /\ dom (files w) ⊆ dom (files w').
Proof.
  rewrite display_analysis_eq.
  destruct (save_clicked b).
  - destruct (save_analysis a false w) as [[p1 | e1] w1] eqn:E1;
      apply save_analysis_frame in E1 as (Hc1 & _ & Hd1 & _).
    + destruct (approve_clicked b).
      * destruct (save_analysis a true w1) as [[p2 | e2] w2] eqn:E2;
          apply save_analysis_frame in E2 as (Hc2 & _ & Hd2 & _);
          intros [= _ <-]; (split; [congruence | set_solver]).
      * intros [= _ <-]. now split.
    + intros [= _ <-]. now split.
  - destruct (approve_clicked b).
    + destruct (save_analysis a true w) as [[p2 | e2] w2] eqn:E2;
        apply save_analysis_frame in E2 as (Hc2 & _ & Hd2 & _);
        intros [= _ <-]; now split.
    + intros [= _ <-]. now split.
Qed.

Lemma bulk_step_frame (press : string -> Buttons) (url : string)
    (w w' : World) (o : Outcome unit) :
  bulk_step press url w = (o, w') ->
  clock w' = clock w /\ dom (files w) ⊆ dom (files w').
Proof.
  unfold bulk_step. destruct (Str.strip isspace url) as [| c s] eqn:E.
  - intros [= _ <-]. now split.
  - rewrite bind_run.
    destruct (analyze_article_never_returns_raise (String c s) w) as (a & ->).
    destruct a as [msg | r]; [intros [= _ <-]; now split |].
    apply display_analysis_frame.
Qed.

Lemma for_each_bulk_frame (press : string -> Buttons) (lines : list string)
    (w w' : World) (o : Outcome unit) :
  for_each lines (bulk_step press) w = (o, w') ->
  clock w' = clock w /\ dom (files w) ⊆ dom (files w').
Proof.
  revert w. induction lines as [| u lines IH]; intros w.
  - intros [= _ <-]. now split.
  - cbn [for_each]. rewrite bind_run.
    destruct (bulk_step press u w) as [[[] | e] w1] eqn:E1;
      apply bulk_step_frame in E1 as (Hc1 & Hd1).
    + intros E2. pose proof (IH _ E2) as (Hc2 & Hd2).
      split; [congruence | etrans; eassumption].
    + intros [= _ <-]. now split.
Qed.

Lemma bulk_step_skip (press : string -> Buttons) (u : string) (w : World) :
  Str.strip isspace u = "" \/
  (exists msg w0 w1,
     analyze_article (Str.strip isspace u) w0 = (Returned (AnError msg), w1)) ->
  bulk_step press u w = (Returned (), w).
Proof.
  unfold bulk_step. intros [-> | (msg & w0 & w1 & Herr)]; [reflexivity |].
  destruct (Str.strip isspace u) as [| c s]; [reflexivity |].
  rewrite bind_run.
  now rewrite (analyze_article_error_any_world _ _ _ _ w Herr).
Qed.

(** X11. In the bulk loop, with the buttons under each result reporting
    what [press] gives, a line that is blank once stripped, or whose url
    gives an error, changes nothing and does not stop the loop: with
    that line taken out of the text, the lines before and after it are
    processed to the same result. Whatever the loop ends with, it has
    left the clock alone and removed no file. *)
Theorem bulk_loop_skips_failures (press : string -> Buttons)
    (before u after : string) (w : World) :
  Str.all (fun c => negb (Ascii.eqb c "010")) u = true ->
  Str.strip isspace u = "" \/
  (exists msg w0 w1,
     analyze_article (Str.strip isspace u) w0 = (Returned (AnError msg), w1)) ->
  main_bulk_urls (before +:+ String "010" (u +:+ String "010" after)) press w
  = main_bulk_urls (before +:+ String "010" after) press w /\
  forall o w',
    main_bulk_urls (before +:+ String "010" (u +:+ String "010" after)) press w
    = (o, w') ->
    clock w' = clock w /\ dom (files w) ⊆ dom (files w').
Proof.
  intros Hline Hskip.
  assert (forall s t, main_bulk_urls (s +:+ String "010" t) press
                      = for_each (Str.split_on "010" (s +:+ String "010" t))
                                 (bulk_step press)) as Hmain.
  { intros s t. unfold main_bulk_urls. now destruct s. }
  rewrite !Hmain, !split_on_append, (split_on_one _ u Hline).
  split.
  - rewrite !(for_each_app (Str.split_on "010" before)).
    destruct (for_each (Str.split_on "010" before) (bulk_step press) w)
      as [[[] | e] w1]; [| reflexivity].
    cbn [app for_each]. rewrite bind_run.
    now rewrite (bulk_step_skip press u w1 Hskip).
  - intros o w'. apply for_each_bulk_frame.
Qed.

End Bulk.

(** ** The range of the metrics *)

Section MetricRange.
Context `{Runtime}.

Lemma quotient_nonneg (wc : Z) (n : nat) :
  0 <= wc -> (0 <= inject_Z wc / inject_Z (Z.of_nat (S n)))%Q.
Proof.
  intros Hwc. apply Qle_shift_div_l.
  - change 0%Q with (inject_Z 0). rewrite <- Zlt_Qlt. lia.
  - rewrite Qmult_0_l. change 0%Q with (inject_Z 0). now rewrite <- Zle_Qle.
Qed.

Lemma quotient_le (wc bound : Z) (n : nat) :
  0 <= wc <= bound ->
  (inject_Z wc / inject_Z (Z.of_nat (S n)) <= inject_Z bound)%Q.
Proof.
  intros Hwc. apply Qle_shift_div_r.
  - change 0%Q with (inject_Z 0). rewrite <- Zlt_Qlt. lia.
  - rewrite <- inject_Z_mult, <- Zle_Qle. nia.
Qed.

Lemma no_readability_suggestion (r : AnalysisRecord) (s : Suggestion) :
  num_gt (avg_sentence_length (metrics r)) 20 = false ->
  s ∈ suggest_improvements r -> category s <> "Readability".
Proof.
  intros Hn. unfold suggest_improvements. rewrite Hn.
  destruct (word_count (metrics r) <? 300),
           (num_headings (metrics r) =? 0),
           (num_internal_links (metrics r) <? 2),
           (num_external_links (metrics r) =? 0); cbn [app];
    intros Hs;
    repeat (apply elem_of_cons in Hs as [-> | Hs]; [discriminate |]);
    now apply elem_of_nil in Hs.
Qed.

(** X12. In a record that [analyze_article] returns no metric is
    negative, the rounding of the division keeping the sign; and a page
    of at most 20 words never gets the suggestion on readability, the
    rounding taking no quotient from at most 20 to above 20. *)
Theorem metrics_range (url : string) (w w' : World) (r : AnalysisRecord) :
  (forall q : Q, (0 <= q)%Q -> (0 <= float_round q)%Q) ->
  (forall q : Q, (q <= inject_Z 20)%Q -> (float_round q <= inject_Z 20)%Q) ->
  analyze_article url w = (Returned (ARecord r), w') ->
  (0 <= word_count (metrics r) /\
   (0 <= Rules.value (avg_sentence_length (metrics r)))%Q /\
   0 <= num_headings (metrics r) /\
   0 <= num_internal_links (metrics r) /\
   0 <= num_external_links (metrics r)) /\
  (word_count (metrics r) <= 20 ->
   forall s, s ∈ suggest_improvements r -> category s <> "Readability").
Proof.
  intros Hsign Hround Ha. apply analyze_article_record in Ha as [[] _].
  rewrite average_run in run_average. injection run_average as <-.
  subst r. unfold record_of.
  cbn [metrics word_count avg_sentence_length num_headings
       num_internal_links num_external_links].
  set (wc := Z.of_nat (length (Str.split isspace (paragraphs_text soup)))).
  assert (0 <= wc) as Hwc by (subst wc; lia).
  split.
  - split; [exact Hwc |]. split; [| lia].
    destruct sentences as [| s0 rest]; cbn [Rules.value].
    + apply Qle_refl.
    + apply Hsign. now apply quotient_nonneg.
  - intros Hle s. apply no_readability_suggestion.
    cbn [metrics avg_sentence_length].
    apply not_true_iff_false. rewrite num_gt_spec. apply Qle_not_lt.
    destruct sentences as [| s0 rest]; cbn [Rules.value].
    + now rewrite <- Zle_Qle.
    + apply Hround. apply quotient_le. lia.
Qed.

End MetricRange.
(* ===================================================================== *)
(** * Runs on the demo runtime *)

Section Runs.
Local Existing Instance Demo.runtime.

Example analyze_page :
  analyze_article Demo.page_url Demo.w0 = (Returned (ARecord Demo.record), Demo.w0).
Proof. vm_compute. reflexivity. Qed.

Example analyze_bare :
  analyze_article Demo.bare_url Demo.w0
  = (Returned (ARecord Demo.bare_record), Demo.w0).
Proof. vm_compute. reflexivity. Qed.

Example analyze_down :
  analyze_article Demo.down_url Demo.w0
  = (Returned (AnError "connection refused"), Demo.w0).
Proof. vm_compute. reflexivity. Qed.

(** A url without scheme has no domain: the index raises and the error is
    its message. *)
Example findall_no_match :
  Re.findall_domain_0 "www.example.com/post"
  = Raised {| exc_class := "IndexError"; exc_str := "list index out of range" |}.
Proof. vm_compute. reflexivity. Qed.

Example findall_www : Re.findall_domain_0 Demo.page_url = Returned "example.com".
Proof. vm_compute. reflexivity. Qed.

Example split_words :
  Str.split Demo.ascii_isspace "  two  words " = ["two"; "words"].
Proof. vm_compute. reflexivity. Qed.

Example demo_path_t0 :
  output_file_name (url Demo.record) false Demo.t0 = Demo.saved_path.
Proof. vm_compute. reflexivity. Qed.


Example demo_path_approved :
  output_file_name (url Demo.record) true Demo.t0 = Demo.approved_path.
Proof. vm_compute. reflexivity. Qed.

Example demo_path_t2 :
  output_file_name (url Demo.record) false Demo.t2 = Demo.later_path.
Proof. vm_compute. reflexivity. Qed.

(** The demo file system opens the three files, whatever files there
    are, and refuses the file of the long url. *)
Example demo_open_saved (m : gmap string JSON) :
  open_w Demo.saved_path m = Returned ().
Proof. vm_compute. reflexivity. Qed.

Example demo_open_approved (m : gmap string JSON) :
  open_w Demo.approved_path m = Returned ().
Proof. vm_compute. reflexivity. Qed.

Example demo_open_later (m : gmap string JSON) :
  open_w Demo.later_path m = Returned ().
Proof. vm_compute. reflexivity. Qed.


(** The longest url whose pending file the demo file system opens has
    226 characters: the name has 29 more. *)
Example demo_open_limit (m : gmap string JSON) :
  open_w (output_file_name ("https://example.com/" +:+ Demo.repeat_char "a" 206)
            false Demo.t0) m = Returned () /\
  exists e,
    open_w (output_file_name ("https://example.com/" +:+ Demo.repeat_char "a" 207)
              false Demo.t0) m = Raised e.
Proof. split; [| eexists]; vm_compute; reflexivity. Qed.

Example demo_save :
  save_analysis Demo.record false Demo.w0
  = (Returned Demo.saved_path,
     {| files := <[Demo.saved_path := analysis_json Demo.record]> ∅;
        clock := Demo.t0 |}).
Proof.
  rewrite save_analysis_run. cbv zeta.
  change (clock Demo.w0) with Demo.t0. change (files Demo.w0) with (∅ : gmap string JSON).
  now rewrite demo_path_t0, demo_open_saved.
Qed.

Example demo_save_approved :
  save_analysis Demo.record true Demo.w0
  = (Returned Demo.approved_path,
     {| files := <[Demo.approved_path := analysis_json Demo.record]> ∅;
        clock := Demo.t0 |}).
Proof.
  rewrite save_analysis_run. cbv zeta.
  change (clock Demo.w0) with Demo.t0. change (files Demo.w0) with (∅ : gmap string JSON).
  now rewrite demo_path_approved, demo_open_approved.
Qed.

Example demo_save_again (t : DateTime) (path : string) (m : gmap string JSON) :
  output_file_name (url Demo.record) false t = path ->
  open_w path m = Returned () ->
  save_analysis Demo.record false {| files := m; clock := t |}
  = (Returned path,
     {| files := <[path := analysis_json Demo.record]> m; clock := t |}).
Proof.
  intros Hpath Hopen. rewrite save_analysis_run. cbv zeta. cbn [files clock].
  now rewrite Hpath, Hopen.
Qed.

(** Witness of C9: two records that share only their metrics. *)
Lemma suggest_improvements_metrics_only_witness :
  url Demo.record <> url Demo.other_record /\
  metrics Demo.record = metrics Demo.other_record /\
  suggest_improvements Demo.record = suggest_improvements Demo.other_record.
Proof.
  split; [discriminate |]. split; [reflexivity |].
  apply suggest_improvements_metrics_only. reflexivity.
Defined.

(** Witness of C3: the url that does not answer. *)
Lemma analyze_article_never_raises_witness :
  requests_get_text Demo.down_url = Raised Demo.connection_error /\
  analyze_article Demo.down_url Demo.w0
  = (Returned (AnError "connection refused"), Demo.w0) /\
  main_single_url Demo.down_url Demo.both_buttons Demo.w0 = (Returned (), Demo.w0).
Proof.
  destruct (analyze_article_never_raises Demo.down_url Demo.w0)
    as (a & Ha & _ & Hfetch & Hmain).
  assert (a = AnError "connection refused") as Ea.
  { apply (Hfetch Demo.connection_error). reflexivity. }
  subst a. split; [reflexivity |]. split; [exact Ha |].
  apply Hmain. reflexivity.
Defined.


(** Witness of C4: the page without paragraph, and a division. *)
Lemma avg_sentence_length_guarded_witness :
  (word_count (metrics Demo.bare_record) = 0 /\
   avg_sentence_length (metrics Demo.bare_record) = PyInt 0 /\
   top_keywords Demo.bare_record = []) /\
  average 10 ["One."; "Two."] Demo.w0 = (Returned (PyFloat (10 # 2)), Demo.w0).
Proof.
  destruct avg_sentence_length_guarded as [Havg Hrec]. split.
  - destruct (Hrec Demo.bare_url Demo.w0 Demo.w0 Demo.bare_record
                Demo.bare_html Demo.bare_soup [])
      as [_ Hempty]; try (vm_compute; reflexivity).
    apply Hempty; reflexivity.
  - destruct (Havg 10 ["One."; "Two."] Demo.w0) as (avg & Hrun & _ & Hq).
    rewrite Hrun. rewrite Hq by discriminate. reflexivity.
Defined.

(** Witness of C10. *)
Lemma record_consistent_witness :
  num_headings (metrics Demo.record) = Z.of_nat (length (headings Demo.record)) /\
  num_internal_links (metrics Demo.record)
  = Z.of_nat (length (internal_links Demo.record)) /\
  num_external_links (metrics Demo.record)
  = Z.of_nat (length (external_links Demo.record)).
Proof.
  destruct (record_consistent Demo.page_url Demo.w0 Demo.w0 Demo.record)
    as (Hh & Hi & He & _); [vm_compute; reflexivity |].
  split; [exact Hh |]. split; [exact Hi | exact He].
Defined.

(** Witness of C5: eleven different words; the first is there twice and
    comes first, the eleventh is left out. *)
Lemma top_keywords_spec_witness :
  occurrences "alpha" (counted_words Demo.eleven_words) = 2 /\
  length (sort_keywords (count_keywords Demo.eleven_words)) = 10%nat /\
  occurrences "kilo" (counted_words Demo.eleven_words) <= 2.
Proof.
  destruct (top_keywords_spec Demo.eleven_words)
    as (_ & _ & _ & Hcount & _ & Hout).
  assert (("alpha", 2) ∈ sort_keywords (count_keywords Demo.eleven_words)) as Hin.
  { apply (bool_decide_unpack _). vm_compute. exact I. }
  destruct (Hcount "alpha" 2 Hin) as [Hc _].
  destruct (Hout "kilo") as [Hlen Hle].
  { apply (bool_decide_unpack _). vm_compute. exact I. }
  { apply (bool_decide_unpack _). vm_compute. exact I. }
  split; [now symmetry |]. split; [exact Hlen |].
  exact (Hle ("alpha", 2) Hin).
Defined.

(** Witness of C6: an [h2] before an [h1], both nested and with spaces
    around their texts; on the demo page too the [h2] comes before the
    [h1]. *)
Lemma headings_grouped_by_level_witness :
  extract_headings
    [NTag "div" []
       [NTag "h2" [("id", "s")] [NText " Sub "];
        NTag "section" []
          [NText "x";
           NTag "h1" [] [NText " Ti"; NTag "b" [] [NText "tle"]; NText " "]]]]
  = ["Title"; "Sub"] /\
  Soup.tag_name <$> Soup.descendants (take 2 Demo.page_soup) = ["h2"; "h1"] /\
  headings Demo.record = ["Title"; "Sub"] /\
  num_headings (metrics Demo.record) = 2 /\
  forall s, s ∈ suggest_improvements Demo.record -> category s <> "Structure".
Proof.
  destruct headings_grouped_by_level
    as (_ & _ & _ & _ & _ & _ & Hscenario & Hrec).
  destruct Hscenario as [_ Hnested]; try reflexivity.
  destruct (Hrec Demo.page_url Demo.w0 Demo.w0 Demo.record
              Demo.page_html Demo.page_soup)
    as (Hh & Hn & Hs); try (vm_compute; reflexivity).
  split; [exact Hnested |].
  split; [reflexivity |]. split; [reflexivity |]. split; [reflexivity |].
  apply Hs. vm_compute. discriminate.
Defined.



(** Witness of C8: the demo record, saved as approved and read back. *)
Lemma save_then_load_witness :
  exists doc,
    files (save_analysis Demo.record true Demo.w0).2 !! Demo.approved_path
    = Some doc /\
    Json.analysis doc = Some Demo.record.
Proof.
  assert (save_analysis Demo.record true Demo.w0
          = (Returned Demo.approved_path,
             (save_analysis Demo.record true Demo.w0).2)) as Hsave.
  { now rewrite demo_save_approved. }
  destruct (save_then_load Demo.page_url Demo.w0 Demo.w0 Demo.w0
              (save_analysis Demo.record true Demo.w0).2 Demo.record true
              Demo.approved_path analyze_page Hsave)
    as (_ & doc & Hfile & _ & Hload).
  exists doc. split; [exact Hfile | exact Hload].
Defined.


(** ** Runs of the further properties *)

(** The demo page has 7 + 2 + 1 words in its two paragraphs and the
    anchor text inside the first; the bare page has no paragraph. *)
Lemma word_count_by_paragraph_witness :
  word_count (metrics Demo.record)
  = Z.of_nat (sum_list_with
                (fun p => length (Str.split Demo.ascii_isspace (Soup.text p)))
                (Soup.find_all "p" Demo.page_soup)) /\
  word_count (metrics Demo.bare_record) = 0.
Proof.
  split.
  - destruct (word_count_by_paragraph Demo.page_url Demo.w0 Demo.w0 Demo.record
                Demo.page_html Demo.page_soup) as (_ & _ & Hsum);
      [reflexivity | reflexivity | exact analyze_page |].
    apply Hsum. reflexivity.
  - destruct (word_count_by_paragraph Demo.bare_url Demo.w0 Demo.w0
                Demo.bare_record Demo.bare_html Demo.bare_soup) as (_ & Hnone & _);
      [reflexivity | reflexivity | exact analyze_bare |].
    apply Hnone. reflexivity.
Defined.

(** The heading [" Sub "] of the demo page is in the record as ["Sub"]. *)
Lemma record_texts_trimmed_witness :
  "Sub" ∈ headings Demo.record /\
  Str.strip Demo.ascii_isspace "Sub" = "Sub" /\
  Str.starts_word Demo.ascii_isspace "Sub" = true /\
  ends_word Demo.ascii_isspace "Sub" = true.
Proof.
  assert ("Sub" ∈ headings Demo.record) as Hin.
  { apply (bool_decide_unpack _). vm_compute. exact I. }
  split; [exact Hin |].
  destruct (record_texts_trimmed Demo.page_url Demo.w0 Demo.w0 Demo.record "Sub")
    as [Hstrip [Hempty | Hends]].
  - exact analyze_page.
  - apply elem_of_app. now left.
  - discriminate Hempty.
  - split; [exact Hstrip | exact Hends].
Defined.

(** The domain of the demo url, and the anchor of a page to itself. *)
Lemma domain_of_url_witness :
  Str.contains "example.com" Demo.page_url = true /\
  analyze_article (H := Demo.self_runtime) Demo.page_url Demo.w0
  = (Returned (ARecord Demo.self_record), Demo.w0) /\
  {| link_text := "start"; link_href := Demo.page_url |}
  ∈ internal_links Demo.self_record.
Proof.
  destruct (domain_of_url (H := Demo.self_runtime) Demo.page_url "example.com")
    as (_ & _ & _ & Hc & Hself); [vm_compute; reflexivity |].
  assert (analyze_article (H := Demo.self_runtime) Demo.page_url Demo.w0
          = (Returned (ARecord Demo.self_record), Demo.w0)) as Hrun
    by (vm_compute; reflexivity).
  split; [exact Hc |]. split; [exact Hrun |].
  apply (Hself Demo.w0 Demo.w0 Demo.self_record
           "<p>Back to the <a href='https://www.example.com/post'> start </a></p>"
           Demo.self_soup
           (NTag "a" [("href", Demo.page_url)] [NText " start "])).
  - reflexivity.
  - reflexivity.
  - exact Hrun.
  - change (Soup.find_all_href "a" Demo.self_soup)
      with [NTag "a" [("href", Demo.page_url)] [NText " start "]].
    apply list_elem_of_here.
  - reflexivity.
Defined.

(** A url without scheme, fetched all the same. *)
Lemma url_without_scheme_witness :
  analyze_article (H := Demo.self_runtime) "www.example.com/post" Demo.w0
  = (Returned (AnError "list index out of range"), Demo.w0).
Proof.
  destruct (url_without_scheme (H := Demo.self_runtime) "www.example.com/post" Demo.w0)
    as (msg & Hrun & Hmsg); [reflexivity |].
  rewrite Hrun. f_equal. f_equal. f_equal.
  apply (Hmsg "<p>Back to the <a href='https://www.example.com/post'> start </a></p>"
              Demo.self_soup (Demo.sentences_from "" (paragraphs_text Demo.self_soup)));
    reflexivity.
Defined.

(** The file of the demo record stays in [results/]. *)
Lemma saved_file_stays_in_results_witness :
  exists name,
    Demo.saved_path = "results/" +:+ name /\ Str.all Re.not_slash name = true.
Proof.
  destruct (saved_file_stays_in_results Demo.record false Demo.w0
              {| files := <[Demo.saved_path := analysis_json Demo.record]> ∅;
                 clock := Demo.t0 |}
              (Returned Demo.saved_path)) as (_ & _ & Hin).
  destruct (Hin eq_refl demo_save) as [Hpath _].
  apply Hpath. reflexivity.
Defined.

(** Two saves of the demo record, one second apart. *)
Lemma saves_in_different_seconds_witness :
  Demo.saved_path <> Demo.later_path /\
  size (<[Demo.later_path := analysis_json Demo.record]>
          (<[Demo.saved_path := analysis_json Demo.record]>
             (∅ : gmap string JSON))) = 2%nat.
Proof.
  destruct (saves_in_different_seconds Demo.record false Demo.w0
              {| files := <[Demo.saved_path := analysis_json Demo.record]> ∅;
                 clock := Demo.t0 |}
              {| files := <[Demo.later_path := analysis_json Demo.record]>
                            (<[Demo.saved_path := analysis_json Demo.record]> ∅);
                 clock := Demo.t2 |}
              Demo.t2 Demo.saved_path Demo.later_path)
    as (Hne & _ & _ & Hsize).
  - unfold printable. cbn. lia.
  - unfold printable. cbn. lia.
  - unfold same_second. cbn. lia.
  - exact demo_save.
  - cbn [files].
    exact (demo_save_again Demo.t2 Demo.later_path _ demo_path_t2
             (demo_open_later _)).
  - split; [exact Hne |]. cbn [files] in Hsize.
    apply Hsize; apply lookup_empty.
Defined.


(** Three tokens, two words. *)
Lemma count_keywords_total_witness :
  total_count (sort_keywords
                 (count_keywords (Demo.token <$> ["alpha"; "bravo"; "alpha"])))
  = 3.
Proof.
  destruct (count_keywords_total (Demo.token <$> ["alpha"; "bravo"; "alpha"]))
    as (_ & _ & Hall).
  destruct Hall as [_ ->]; [vm_compute; lia | reflexivity].
Defined.

(** Metrics that pass every rule. *)
Lemma no_suggestion_iff_witness : suggest_improvements Demo.good_record = [].
Proof.
  destruct (no_suggestion_iff Demo.good_record) as [[_ Hnone] _].
  apply Hnone. cbn. repeat split; try lia; try discriminate.
Defined.

(** Three lines, the second of a url that does not answer. *)
Lemma bulk_loop_skips_failures_witness :
  main_bulk_urls
    (Demo.page_url +:+ String "010" (Demo.down_url +:+ String "010" Demo.bare_url))
    (fun _ => Demo.both_buttons) Demo.w0
  = main_bulk_urls (Demo.page_url +:+ String "010" Demo.bare_url)
      (fun _ => Demo.both_buttons) Demo.w0.
Proof.
  refine (proj1 (bulk_loop_skips_failures (fun _ => Demo.both_buttons)
                   Demo.page_url Demo.down_url Demo.bare_url Demo.w0 _ _)).
  - reflexivity.
  - right. exists "connection refused", Demo.w0, Demo.w0.
    vm_compute. reflexivity.
Defined.

(** The demo page has 10 words. *)
Lemma metrics_range_witness :
  (0 <= Rules.value (avg_sentence_length (metrics Demo.record)))%Q /\
  forall s, s ∈ suggest_improvements Demo.record -> category s <> "Readability".
Proof.
  destruct (metrics_range Demo.page_url Demo.w0 Demo.w0 Demo.record)
    as [(_ & Havg & _) Hnone].
  - intros q Hq. exact Hq.
  - intros q Hq. exact Hq.
  - exact analyze_page.
  - split; [exact Havg |]. apply Hnone. cbn. lia.
Defined.
End Runs.
